(** * Neuraxle data steps: [neuraxle/steps/data.py]

    A shallow embedding of the four steps of the module
    ([DataShuffler], [EpochRepeater], [TrainShuffled], [ZipData]) and the
    properties their specification states about them.

    - Python objects that the methods mutate are modelled by explicit
      state passing: a method takes [self] and returns the updated [self]
      next to its result.  Data containers, which [ZipData] updates in
      place and reaches through references, live in a store.
    - Calls into a wrapped step are recorded in a call trace, so that "is
      invoked n times" is a statement about that trace.
    - An expression that may raise evaluates to a [Py.result].
    - [random.Random] is an interface with the contract of [_randbelow];
      CPython's Mersenne Twister is one instance of it.  NumPy arrays are
      a shape and the items at each index.

    Part I holds the model, Part II the lemmas and the statements. *)

From Stdlib Require Import ZArith Lia.
From stdpp Require Import base list strings.

(* ================================================================== *)
(** * Part I: the model                                                *)
(* ================================================================== *)

(** ** The wrapped step contract

    [EpochRepeater] is a meta step: it only calls the four fitting
    entry points of the step it wraps.  These belong to
    [neuraxle.base.BaseStep]; each returns the (possibly new) step, which
    the caller stores back into [self.wrapped]. *)

Module Step.

(** Modelled from the spec: the step contract "a unit in the host pipeline
    framework exposing fit/transform operations" of [neuraxle.base], which
    is not part of this module.  Only the signatures are fixed; what a
    step does is left to each instance. *)
Class BaseStep (W data DC Ctx : Type) := {
  fit : W -> data -> data -> W;
  fit_transform : W -> data -> data -> W * data;
  handle_fit : W -> DC -> Ctx -> W;
  handle_fit_transform : W -> DC -> Ctx -> W * DC;
  (** [DataContainer.copy] *)
  copy : DC -> DC
}.

(** One entry per call received by the wrapped step, with its arguments. *)
Inductive call (data DC Ctx : Type) :=
| Fit (data_inputs expected_outputs : data)
| FitTransform (data_inputs expected_outputs : data)
| HandleFit (data_container : DC) (context : Ctx)
| HandleFitTransform (data_container : DC) (context : Ctx).

Arguments Fit {data DC Ctx}.
Arguments FitTransform {data DC Ctx}.
Arguments HandleFit {data DC Ctx}.
Arguments HandleFitTransform {data DC Ctx}.

(** The calls of a trace that fit the wrapped step without transforming:
    [fit] on the plain path, [handle_fit] on the data container path. *)
Definition is_fit_call {data DC Ctx} (c : call data DC Ctx) : bool :=
  match c with
  | Fit _ _ | HandleFit _ _ => true
  | FitTransform _ _ | HandleFitTransform _ _ => false
  end.

(** How many fits a trace holds. *)
Definition fits {data DC Ctx} (tr : list (call data DC Ctx)) : nat :=
  length (List.filter is_fit_call tr).

End Step.

(** ** A state monad over the call trace *)

Module Traced.
Section Monad.
Context {E : Type}.

Definition M (X : Type) : Type := list E -> X * list E.

Definition ret {X} (x : X) : M X := fun tr => (x, tr).

Definition bind {X Y} (m : M X) (k : X -> M Y) : M Y :=
  fun tr => let (x, tr') := m tr in k x tr'.

(** Record one call at the end of the trace. *)
Definition emit (e : E) : M unit := fun tr => (tt, tr ++ [e]).

(** [for _ in range(n): s = body(s)] *)
Fixpoint for_range {St} (n : nat) (body : St -> M St) (s : St) : M St :=
  match n with
  | O => ret s
  | S n' => bind (body s) (for_range n' body)
  end.

End Monad.

(** [len(range(n))] for a Python integer [n]: empty when [n <= 0]. *)
Definition range (n : Z) : nat := Z.to_nat n.

End Traced.

Declare Scope traced_scope.
Notation "x <- m ; k" := (Traced.bind m (fun x => k))
  (at level 20, m at level 100, k at level 200, only parsing) : traced_scope.

(** ** [EpochRepeater] *)

Module EpochRepeater.
Import Traced.
#[local] Open Scope traced_scope.
Section WithWrapped.
Context {W data DC Ctx : Type} `{!Step.BaseStep W data DC Ctx}.

Abbreviation call := (Step.call data DC Ctx).

(** The attributes [__init__] sets, and [is_train], which every step
    inherits from [BaseStep] and the framework switches by [set_train]. *)
Record t := mk {
  wrapped : W;
  epochs : Z;
  fit_only : bool;
  repeat_in_test_mode : bool;
  is_train : bool
}.

Definition set_wrapped (self : t) (w : W) : t :=
  mk w (epochs self) (fit_only self) (repeat_in_test_mode self) (is_train self).

Definition set_train (self : t) (b : bool) : t :=
  mk (wrapped self) (epochs self) (fit_only self) (repeat_in_test_mode self) b.

(** [EpochRepeater(wrapped, epochs, fit_only=False, repeat_in_test_mode=False)];
    [BaseStep.__init__] leaves a new step in train mode. *)
Definition __init__ (wrapped : W) (epochs : Z)
    (fit_only repeat_in_test_mode : bool) : t :=
  mk wrapped epochs fit_only repeat_in_test_mode true.

(** The traced calls into the wrapped step. *)
Definition call_fit (w : W) (di eo : data) : M (E:=call) W :=
  bind (emit (Step.Fit di eo)) (fun _ => ret (Step.fit w di eo)).

Definition call_fit_transform (w : W) (di eo : data) : M (E:=call) (W * data) :=
  bind (emit (Step.FitTransform di eo))
    (fun _ => ret (Step.fit_transform w di eo)).

Definition call_handle_fit (w : W) (dc : DC) (ctx : Ctx) : M (E:=call) W :=
  bind (emit (Step.HandleFit dc ctx))
    (fun _ => ret (Step.handle_fit w dc ctx)).

Definition call_handle_fit_transform (w : W) (dc : DC) (ctx : Ctx)
    : M (E:=call) (W * DC) :=
  bind (emit (Step.HandleFitTransform dc ctx))
    (fun _ => ret (Step.handle_fit_transform w dc ctx)).

(** [return self.is_train or not self.is_train and self.repeat_in_test_mode] *)
Definition _should_repeat_fit (self : t) : bool :=
  is_train self || (negb (is_train self) && repeat_in_test_mode self).

Definition _get_epochs (self : t) : Z :=
  let epochs := epochs self in
  if _should_repeat_fit self then 1%Z else epochs.

Definition _fit_transform_data_container (self : t) (data_container : DC)
    (context : Ctx) : M (E:=call) (t * DC) :=
  w <- (if negb (fit_only self)
        then for_range (range (epochs self - 1))
               (fun w => call_handle_fit w (Step.copy data_container) context)
               (wrapped self)
        else ret (wrapped self)) ;
  r <- call_handle_fit_transform w data_container context ;
  let (w', data_container') := r in
  ret (set_wrapped self w', data_container').

Definition fit_transform (self : t) (data_inputs expected_outputs : data)
    : M (E:=call) (t * data) :=
  w <- (if negb (fit_only self)
        then let epochs := _get_epochs self in
             for_range (range epochs)
               (fun w => call_fit w data_inputs expected_outputs)
               (wrapped self)
        else ret (wrapped self)) ;
  r <- call_fit_transform w data_inputs expected_outputs ;
  let (w', outputs) := r in
  ret (set_wrapped self w', outputs).

Definition _fit_data_container (self : t) (data_container : DC)
    (context : Ctx) : M (E:=call) t :=
  let epochs := _get_epochs self in
  w <- for_range (range epochs)
         (fun w => call_handle_fit w (Step.copy data_container) context)
         (wrapped self) ;
  ret (set_wrapped self w).

Definition fit (self : t) (data_inputs expected_outputs : data)
    : M (E:=call) t :=
  let epochs := _get_epochs self in
  w <- for_range (range epochs)
         (fun w => call_fit w data_inputs expected_outputs)
         (wrapped self) ;
  ret (set_wrapped self w).

(** Vocabulary of the statements: the wrapped step after [n] successive
    fits on the same data, and the number of fits each fit-transform path
    performs before its final fit-transform. *)
Definition fitted (n : nat) (di eo : data) (w : W) : W :=
  Nat.iter n (fun w => Step.fit w di eo) w.

Definition handle_fitted (n : nat) (dc : DC) (ctx : Ctx) (w : W) : W :=
  Nat.iter n (fun w => Step.handle_fit w (Step.copy dc) ctx) w.

Definition fit_transform_fits (self : t) : nat :=
  if fit_only self then 0 else range (_get_epochs self).

Definition fit_transform_data_container_fits (self : t) : nat :=
  if fit_only self then 0 else range (epochs self - 1).

End WithWrapped.

Arguments t : clear implicits.

End EpochRepeater.

(** ** Python values: exceptions, list indexing, [zip] *)

Module Py.

Inductive exn := ValueError | IndexError.

(** The outcome of an expression that may raise. *)
Inductive result (A : Type) :=
| Ok (a : A)
| Raise (e : exn).

Arguments Ok {A}.
Arguments Raise {A}.

(** [result] is a functor. *)
Definition result_map {B C} (f : B -> C) (r : result B) : result C :=
  match r with
  | Ok b => Ok (f b)
  | Raise e => Raise e
  end.

(** Normalise a list index: a negative index counts from the end, and an
    index outside the list raises [IndexError]. *)
Definition index {A} (x : list A) (i : Z) : result nat :=
  let n := Z.of_nat (length x) in
  let i := if (i <? 0)%Z then (i + n)%Z else i in
  if ((0 <=? i) && (i <? n))%Z then Ok (Z.to_nat i) else Raise IndexError.

(** [x[i]] *)
Definition getitem {A} (x : list A) (i : Z) : result A :=
  match index x i with
  | Ok k => match x !! k with Some a => Ok a | None => Raise IndexError end
  | Raise e => Raise e
  end.

(** [x[i] = a] *)
Definition setitem {A} (x : list A) (i : Z) (a : A) : result (list A) :=
  match index x i with
  | Ok k => Ok (<[k := a]> x)
  | Raise e => Raise e
  end.

(** [x[i], x[j] = x[j], x[i]]: the right-hand side is evaluated first
    ([x[j]], then [x[i]]), then [x[i]] and [x[j]] are assigned in turn. *)
Definition swap {A} (x : list A) (i j : Z) : result (list A) :=
  match getitem x j with
  | Raise e => Raise e
  | Ok xj =>
    match getitem x i with
    | Raise e => Raise e
    | Ok xi =>
      match setitem x i xj with
      | Raise e => Raise e
      | Ok x' => setitem x' j xi
      end
    end
  end.

(** [list(zip( *iterables ))], tuples being lists: the [k]-th tuple holds
    the [k]-th item of every iterable, and the result is as long as the
    shortest iterable; [zip()] of no iterable is empty. *)
Fixpoint zip {A} (iterables : list (list A)) : list (list A) :=
  match iterables with
  | [] => []
  | it :: rest =>
    match rest with
    | [] => map (fun a => [a]) it
    | _ :: _ => zip_with cons it (zip rest)
    end
  end.

(** A pair as the two-item tuple that [zip] builds from two iterables. *)
Definition row {A} (p : A * A) : list A := [p.1; p.2].

(** [n.bit_length()] *)
Definition bit_length (n : Z) : Z :=
  if (n =? 0)%Z then 0%Z else (Z.log2 (Z.abs n) + 1)%Z.

End Py.

(** ** [random.Random]: the generator interface and [shuffle]

    [random.Random(seed)] builds a generator; [shuffle] only draws from it
    through [_randbelow].  The interface below keeps the generator
    abstract; [MT19937] further down is CPython's. *)

Module Random.

Class RandomSource := {
  rng : Type;
  (** [random.Random(seed)] for an integer seed *)
  Random : Z -> rng;
  (** [self._randbelow(n)]: the drawn integer and the advanced generator *)
  _randbelow : Z -> rng -> Z * rng
}.

(** The contract of [_randbelow]: "return a random int in the range
    [0, n)", for [n > 0]. *)
Definition randbelow_in_range (R : RandomSource) : Prop :=
  forall (n : Z) (g : rng), (0 < n)%Z ->
    (0 <= (_randbelow n g).1 < n)%Z.

Section Shuffle.
Context {R : RandomSource} {A : Type}.

(** The iterations [i], [i - 1], ..., [1] of
    [for i in reversed(range(1, len(x))): j = randbelow(i + 1);
     x[i], x[j] = x[j], x[i]]. *)
Fixpoint shuffle_loop (i : nat) (x : list A) (g : rng)
    : Py.result (list A) * rng :=
  match i with
  | O => (Py.Ok x, g)
  | S i' =>
    let (j, g) := _randbelow (Z.of_nat i + 1) g in
    match Py.swap x (Z.of_nat i) j with
    | Py.Ok x => shuffle_loop i' x g
    | Py.Raise e => (Py.Raise e, g)
    end
  end.

(** [self.shuffle(x)]: the list [x] after the in-place shuffle. *)
Definition shuffle (x : list A) (g : rng) : Py.result (list A) * rng :=
  shuffle_loop (length x - 1) x g.

End Shuffle.

End Random.

(** ** CPython's generator: the Mersenne Twister MT19937

    [random.Random] is implemented by [Modules/_randommodule.c]: a state
    of [N] words of 32 bits and an index into it.  Words are integers
    with the wrap-around of [uint32_t] written out by [u32]. *)

Module MT19937.

Definition N : nat := 624.
Definition M : nat := 397.
Definition MATRIX_A : Z := 0x9908b0df.
Definition UPPER_MASK : Z := 0x80000000.
Definition LOWER_MASK : Z := 0x7fffffff.

Definition u32 (x : Z) : Z := (x mod 2 ^ 32)%Z.

(** [RandomObject]: [state], [index], and one ghost field: [exhausted]
    records that a rejection loop of [_randbelow] was cut off (see
    [max_rejections]); it is read by no operation. *)
Record RandomObject := mk {
  state : list Z;
  index : nat;
  exhausted : bool
}.

(** [init_genrand(s)] *)
Definition init_genrand (s : Z) : list Z :=
  let mt := <[0%nat := s]> (replicate N 0%Z) in
  foldl (fun mt mti =>
           let p := mt !!! (mti - 1)%nat in
           <[mti := u32 (1812433253 * Z.lxor p (Z.shiftr p 30) + Z.of_nat mti)]> mt)
        mt (seq 1 (N - 1)).

(** The two loops of [init_by_array], one iteration each. *)
Definition init_by_array_mix (init_key : list Z) (s : list Z * nat * nat)
    : list Z * nat * nat :=
  let '(mt, i, j) := s in
  let p := mt !!! (i - 1)%nat in
  let mt := <[i := u32 (Z.lxor (mt !!! i) (u32 (Z.lxor p (Z.shiftr p 30) * 1664525))
                        + init_key !!! j + Z.of_nat j)]> mt in
  let i := S i in
  let j := S j in
  let '(mt, i) := if (N <=? i)%nat then (<[0%nat := mt !!! (N - 1)%nat]> mt, 1%nat)
                  else (mt, i) in
  let j := if (length init_key <=? j)%nat then 0%nat else j in
  (mt, i, j).

Definition init_by_array_finish (s : list Z * nat) : list Z * nat :=
  let '(mt, i) := s in
  let p := mt !!! (i - 1)%nat in
  let mt := <[i := u32 (Z.lxor (mt !!! i) (u32 (Z.lxor p (Z.shiftr p 30) * 1566083941))
                        - Z.of_nat i)]> mt in
  let i := S i in
  if (N <=? i)%nat then (<[0%nat := mt !!! (N - 1)%nat]> mt, 1%nat) else (mt, i).

(** [init_by_array(init_key, key_length)] *)
Definition init_by_array (init_key : list Z) : list Z :=
  let key_length := length init_key in
  let mt := init_genrand 19650218 in
  let '(mt, i, _) :=
    Nat.iter (Nat.max N key_length) (init_by_array_mix init_key) (mt, 1%nat, 0%nat) in
  let '(mt, _) := Nat.iter (N - 1) init_by_array_finish (mt, i) in
  <[0%nat := 0x80000000%Z]> mt.

(** [random_seed] for an integer argument: the key is the absolute value
    cut into 32-bit words, least significant first, one word at least. *)
Definition init_key (a : Z) : list Z :=
  let n := Z.abs a in
  let bits := Py.bit_length n in
  let keyused := if (bits =? 0)%Z then 1%Z else ((bits - 1) / 32 + 1)%Z in
  map (fun i => u32 (Z.shiftr n (32 * Z.of_nat i))) (seq 0 (Z.to_nat keyused)).

Definition seed (a : Z) : RandomObject :=
  mk (init_by_array (init_key a)) N false.

Definition mag01 (b : Z) : Z := if (b =? 0)%Z then 0%Z else MATRIX_A.

(** [y = (mt[kk] & UPPER_MASK) | (mt[kk1] & LOWER_MASK);
     mt[kk] = mt[km] ^ (y >> 1) ^ mag01[y & 1]] *)
Definition twist (mt : list Z) (kk kk1 km : nat) : list Z :=
  let y := Z.lor (Z.land (mt !!! kk) UPPER_MASK) (Z.land (mt !!! kk1) LOWER_MASK) in
  <[kk := Z.lxor (Z.lxor (mt !!! km) (Z.shiftr y 1)) (mag01 (Z.land y 1))]> mt.

(** "generate N words at one time" *)
Definition generate (mt : list Z) : list Z :=
  let mt := foldl (fun mt kk => twist mt kk (kk + 1) (kk + M)) mt (seq 0 (N - M)) in
  let mt := foldl (fun mt kk => twist mt kk (kk + 1) (kk + M - N)) mt
              (seq (N - M) (M - 1)) in
  twist mt (N - 1) 0 (M - 1).

Definition temper (y : Z) : Z :=
  let y := Z.lxor y (Z.shiftr y 11) in
  let y := Z.lxor y (Z.land (Z.shiftl y 7) 0x9d2c5680) in
  let y := Z.lxor y (Z.land (Z.shiftl y 15) 0xefc60000) in
  Z.lxor y (Z.shiftr y 18).

(** [genrand_uint32]; the result has the type [uint32_t]. *)
Definition genrand_uint32 (self : RandomObject) : Z * RandomObject :=
  let '(mt, index) :=
    if (N <=? index self)%nat then (generate (state self), 0%nat)
    else (state self, index self) in
  let y := mt !!! index in
  (u32 (temper y), mk mt (S index) (exhausted self)).

(** The words of [getrandbits(k)] for [k > 32], least significant first:
    every word holds 32 bits but the last, which holds the remaining ones. *)
Fixpoint getrandbits_words (words : nat) (k : Z) (self : RandomObject)
    : list Z * RandomObject :=
  match words with
  | O => ([], self)
  | S words' =>
    let (r, self) := genrand_uint32 self in
    let r := if (k <? 32)%Z then Z.shiftr r (32 - k) else r in
    let (rest, self) := getrandbits_words words' (k - 32) self in
    (r :: rest, self)
  end.

(** The integer whose 32-bit digits are [ws], least significant first. *)
Fixpoint from_words (ws : list Z) : Z :=
  match ws with
  | [] => 0%Z
  | w :: ws' => (w + 2 ^ 32 * from_words ws')%Z
  end.

(** [getrandbits(k)], for [k > 0] *)
Definition getrandbits (k : Z) (self : RandomObject) : Z * RandomObject :=
  if (k <=? 32)%Z then
    let (r, self) := genrand_uint32 self in (Z.shiftr r (32 - k), self)
  else
    let words := Z.to_nat ((k - 1) / 32 + 1) in
    let (ws, self) := getrandbits_words words k self in
    (from_words ws, self).

(** The rejection loop [while r >= n: r = getrandbits(k)] has no bound in
    Python; each draw is rejected with probability below one half.  The
    model stops after [max_rejections] further draws, answers [0] and sets
    [exhausted].  A run that ends with [exhausted = false] is a run of the
    Python loop. *)
Definition max_rejections : nat := 128.

Fixpoint randbelow_loop (tries : nat) (k n : Z) (self : RandomObject)
    : Z * RandomObject :=
  let (r, self) := getrandbits k self in
  if (r <? n)%Z then (r, self)
  else match tries with
       | O => (0%Z, mk (state self) (index self) true)
       | S tries' => randbelow_loop tries' k n self
       end.

(** The Python loop itself, which has no bound: the draw is returned when
    it is below [n], else the loop goes on from the generator it left. *)
Inductive randbelow_run (k n : Z) : RandomObject -> Z -> RandomObject -> Prop :=
| randbelow_accept self r self' :
    getrandbits k self = (r, self') -> (r < n)%Z ->
    randbelow_run k n self r self'
| randbelow_reject self r0 self0 r self' :
    getrandbits k self = (r0, self0) -> (n <= r0)%Z ->
    randbelow_run k n self0 r self' ->
    randbelow_run k n self r self'.

(** [_randbelow_with_getrandbits(n)], for [n > 0] *)
Definition _randbelow (n : Z) (self : RandomObject) : Z * RandomObject :=
  let k := Py.bit_length n in
  randbelow_loop max_rejections k n self.

(** [shuffle] drawing through the Python loop: the iterations [i], ...,
    [1] of its [for] loop. *)
Inductive shuffle_run {A : Type}
    : nat -> list A -> RandomObject -> Py.result (list A) -> RandomObject -> Prop :=
| shuffle_run_done x self : shuffle_run 0 x self (Py.Ok x) self
| shuffle_run_swap i x self j self1 x1 r self2 :
    randbelow_run (Py.bit_length (Z.of_nat (S i) + 1)) (Z.of_nat (S i) + 1)
      self j self1 ->
    Py.swap x (Z.of_nat (S i)) j = Py.Ok x1 ->
    shuffle_run i x1 self1 r self2 ->
    shuffle_run (S i) x self r self2
| shuffle_run_raise i x self j self1 e :
    randbelow_run (Py.bit_length (Z.of_nat (S i) + 1)) (Z.of_nat (S i) + 1)
      self j self1 ->
    Py.swap x (Z.of_nat (S i)) j = Py.Raise e ->
    shuffle_run (S i) x self (Py.Raise e) self1.

(** The invariant of the state: [N] words, each within 32 bits. *)
Definition is_u32 (x : Z) : Prop := (0 <= x < 2 ^ 32)%Z.

Definition words_ok (mt : list Z) : Prop := length mt = N /\ Forall is_u32 mt.

#[export] Instance source : Random.RandomSource := {|
  Random.rng := RandomObject;
  Random.Random := seed;
  Random._randbelow := _randbelow
|}.

End MT19937.

(** ** [DataShuffler] *)

Module DataShuffler.

Record t := mk {
  seed : Z;
  increment_seed_after_each_fit : bool
}.

(** [DataShuffler(seed=None, increment_seed_after_each_fit=True)];
    [None] is Python's [None]. *)
Definition __init__ (seed : option Z) (increment_seed_after_each_fit : bool) : t :=
  let seed := match seed with None => 42%Z | Some seed => seed end in
  mk seed increment_seed_after_each_fit.

(** Vocabulary of the statements: the step as a call of [transform]
    leaves it; the seed has moved on by one when
    [increment_seed_after_each_fit] is set. *)
Definition advanced (self : t) : t :=
  if increment_seed_after_each_fit self then mk (seed self + 1) true else self.

Section Transform.
Context {R : Random.RandomSource} {V : Type}.

(** [transform(self, data_inputs)]: the step after the call (its seed may
    have moved on) and what the call returns or raises.  The argument is
    the pair [(data inputs, expected outputs)]; the two-name unpacking of
    [list(zip( *data ))] raises [ValueError] unless it holds exactly two
    tuples. *)
Definition transform (self : t) (data_inputs : list V * list V)
    : t * Py.result (list V * list V) :=
  let self :=
    if increment_seed_after_each_fit self
    then mk (seed self + 1) (increment_seed_after_each_fit self)
    else self in
  let (di, eo) := data_inputs in
  let data := Py.zip [di; eo] in
  match (Random.shuffle data (Random.Random (seed self))).1 with
  | Py.Raise e => (self, Py.Raise e)
  | Py.Ok data =>
    match Py.zip data with
    | [data_inputs_shuffled; expected_outputs_shuffled] =>
      (self, Py.Ok (data_inputs_shuffled, expected_outputs_shuffled))
    | _ => (self, Py.Raise Py.ValueError)
    end
  end.

End Transform.

End DataShuffler.

(** ** [TrainShuffled] *)

Module Pipeline.

(** Modelled from the spec: the steps [TrainShuffled] is built from.
    [Pipeline] and [TrainOnlyWrapper] belong to [neuraxle.pipeline] and
    [neuraxle.steps.flow]; here a pipeline is the sequence of steps it was
    given and a wrapper is the step it wraps.  [Wrapped] is any step of
    the framework. *)
#[warnings="-register-all"]
Inductive step (W : Type) :=
| DataShuffler (s : DataShuffler.t)
| TrainOnlyWrapper (wrapped : step W)
| Pipeline (steps : list (step W))
| Wrapped (w : W).

Arguments DataShuffler {W}.
Arguments TrainOnlyWrapper {W}.
Arguments Pipeline {W}.
Arguments Wrapped {W}.

(** The step sequence of a pipeline (no other step has one). *)
Definition steps {W} (p : step W) : option (list (step W)) :=
  match p with
  | Pipeline steps => Some steps
  | _ => None
  end.

End Pipeline.

Module TrainShuffled.

(** [TrainShuffled(wrapped, seed=None)]; the shuffler is built by
    [DataShuffler(seed=seed)], with its default
    [increment_seed_after_each_fit=True]. *)
Definition __init__ {W} (wrapped : Pipeline.step W) (seed : option Z)
    : Pipeline.step W :=
  Pipeline.Pipeline [
    Pipeline.TrainOnlyWrapper
      (Pipeline.DataShuffler (DataShuffler.__init__ seed true));
    wrapped
  ].

End TrainShuffled.

(** ** NumPy arrays

    An array is its shape and its items, read by multi-index; an item is
    meant only at an index that is within the shape.  The three NumPy
    operations [ZipData] uses are views or copies defined item by item,
    and raise [ValueError] as NumPy does. *)

Module Numpy.

(** [t[:-1]] of a tuple *)
Definition but_last {A} (t : list A) : list A := take (length t - 1) t.

Section Array.
Context {V : Type}.

Record ndarray := mk {
  shape : list nat;
  item : list nat -> V
}.

(** [len(a.shape)] *)
Definition ndim (a : ndarray) : nat := length (shape a).


(** All the indices of the shape [s], in row-major order. *)
Fixpoint indices (s : list nat) : list (list nat) :=
  match s with
  | [] => [[]]
  | n :: s' => i ← seq 0 n; cons i <$> indices s'
  end.

(** [a.ravel().tolist()]: the items in row-major order. *)
Definition ravel (a : ndarray) : list V := item a <$> indices (shape a).

(** [np.expand_dims(a, axis=-1)]: one more axis of size one at the end. *)
Definition expand_dims (a : ndarray) : ndarray :=
  mk (shape a ++ [1]) (fun idx => item a (take (ndim a) idx)).

(** Whether [np.broadcast_to] accepts: the shape is matched against the
    last axes of the target, and each of its sizes is one or the target's. *)
Definition broadcastable (s target : list nat) : bool :=
  (length s <=? length target) &&
  forallb (fun p => (p.1 =? 1) || (p.1 =? p.2))
          (zip s (drop (length target - length s) target)).

(** The index of the source item that a broadcast view shows at [idx]: the
    leading axes the source lacks are dropped, and an axis of size one is
    read at zero. *)
Definition broadcast_index (s target idx : list nat) : list nat :=
  zip_with (fun n i => if n =? 1 then 0 else i) s
           (drop (length target - length s) idx).

(** [np.broadcast_to(a, target)] *)
Definition broadcast_to (a : ndarray) (target : list nat) : Py.result ndarray :=
  if broadcastable (shape a) target
  then Py.Ok (mk target (fun idx => item a (broadcast_index (shape a) target idx)))
  else Py.Raise Py.ValueError.

(** [np.concatenate((a, b), axis=-1)]: both arrays must have the same
    number of axes, one at least, and the same sizes on all but the last. *)
Definition concatenate (a b : ndarray) : Py.result ndarray :=
  match Py.getitem (shape a) (-1), Py.getitem (shape b) (-1) with
  | Py.Ok na, Py.Ok nb =>
    if decide (but_last (shape a) = but_last (shape b))
    then Py.Ok (mk (but_last (shape a) ++ [na + nb])
                   (fun idx =>
                      let p := but_last idx in
                      let j := default 0 (last idx) in
                      if j <? na then item a (p ++ [j])
                      else item b (p ++ [j - na])))
    else Py.Raise Py.ValueError
  | _, _ => Py.Raise Py.ValueError
  end.

End Array.

Arguments ndarray : clear implicits.

End Numpy.

(** ** [DataContainer] and the store of containers *)

Module DataContainer.

(** A reference to a container object. *)
Definition ref := nat.

(** Modelled from the spec: the data container of
    [neuraxle.data_container], "an external structure carrying paired
    data-inputs and expected-outputs sequences, plus named
    sub-containers".  [sub_data_containers] is the list of
    [(name, container)] pairs that [ZipData] iterates over; containers are
    objects, held by reference. *)
Record t (V : Type) := mk {
  data_inputs : Numpy.ndarray V;
  expected_outputs : Numpy.ndarray V;
  sub_data_containers : list (string * ref)
}.

Arguments mk {V}.
Arguments data_inputs {V}.
Arguments expected_outputs {V}.
Arguments sub_data_containers {V}.

(** The store: the container each reference points to. *)
Definition store (V : Type) : Type := ref -> t V.

Section Setters.
Context {V : Type}.

(** The store in which [r] points to [c]. *)
Definition write (r : ref) (c : t V) (h : store V) : store V :=
  fun r' => if (r' =? r)%nat then c else h r'.

(** [data_container.set_data_inputs(data_inputs)], in place. *)
Definition set_data_inputs (data_container : ref) (data_inputs : Numpy.ndarray V)
    (h : store V) : store V :=
  write data_container
    (mk data_inputs (expected_outputs (h data_container))
        (sub_data_containers (h data_container))) h.

(** [data_container.set_expected_outputs(expected_outputs)], in place. *)
Definition set_expected_outputs (data_container : ref)
    (expected_outputs : Numpy.ndarray V) (h : store V) : store V :=
  write data_container
    (mk (data_inputs (h data_container)) expected_outputs
        (sub_data_containers (h data_container))) h.

End Setters.

End DataContainer.

(** ** [ZipData] *)

Module ZipData.
Import Numpy DataContainer.

Record t := mk {
  data_sources : list string
}.

Definition __init__ (data_sources : list string) : t := mk data_sources.

Section WithItems.
Context {V : Type}.

(** [while len(np_array_to_zip.shape) < len(np_array.shape):
       np_array_to_zip = np.expand_dims(np_array_to_zip, axis=-1)];
    every turn adds an axis, so [fuel = len(np_array.shape)] turns are
    never used up. *)
Fixpoint expand_loop (fuel : nat) (np_array np_array_to_zip : ndarray V)
    : ndarray V :=
  if ndim np_array_to_zip <? ndim np_array then
    match fuel with
    | O => np_array_to_zip
    | S fuel' => expand_loop fuel' np_array (expand_dims np_array_to_zip)
    end
  else np_array_to_zip.

Definition _zip_np_arrays (np_array np_array_to_zip : ndarray V)
    : Py.result (ndarray V) :=
  let np_array_to_zip := expand_loop (ndim np_array) np_array np_array_to_zip in
  match Py.getitem (shape np_array_to_zip) (-1) with
  | Py.Raise e => Py.Raise e
  | Py.Ok n =>
    let target_shape := but_last (shape np_array) ++ [n] in
    match broadcast_to np_array_to_zip target_shape with
    | Py.Raise e => Py.Raise e
    | Py.Ok np_array_to_zip => concatenate np_array np_array_to_zip
    end
  end.

(** The methods below run on the store and may raise; what they have
    written before raising stays written. *)
Definition _zip_data_container (data_container data_container_to_zip : ref)
    (h : store V) : store V * Py.result ref :=
  match _zip_np_arrays (data_inputs (h data_container))
                       (data_inputs (h data_container_to_zip)) with
  | Py.Raise e => (h, Py.Raise e)
  | Py.Ok data_inputs =>
    let h := set_data_inputs data_container data_inputs h in
    match _zip_np_arrays (expected_outputs (h data_container))
                         (expected_outputs (h data_container_to_zip)) with
    | Py.Raise e => (h, Py.Raise e)
    | Py.Ok expected_outputs =>
      let h := set_expected_outputs data_container expected_outputs h in
      (h, Py.Ok data_container)
    end
  end.

(** The first loop of [_zip_sub_data_containers]: collect, in order, the
    sub data containers whose name is in [data_sources]. *)
Definition sub_data_containers_to_zip (self : t) (subs : list (string * ref))
    : list ref :=
  foldl (fun to_zip sub =>
           if decide (sub.1 ∈ data_sources self) then to_zip ++ [sub.2]
           else to_zip)
        [] subs.

(** The second loop: zip them into the container one after the other. *)
Fixpoint zip_loop (to_zip : list ref) (data_container : ref) (h : store V)
    : store V * Py.result ref :=
  match to_zip with
  | [] => (h, Py.Ok data_container)
  | data_container_to_zip :: rest =>
    match _zip_data_container data_container data_container_to_zip h with
    | (h, Py.Ok data_container) => zip_loop rest data_container h
    | (h, Py.Raise e) => (h, Py.Raise e)
    end
  end.

Definition _zip_sub_data_containers (self : t) (data_container : ref)
    (h : store V) : store V * Py.result ref :=
  let sub_data_containers_to_zip :=
    sub_data_containers_to_zip self (sub_data_containers (h data_container)) in
  zip_loop sub_data_containers_to_zip data_container h.

(** The context argument is not used. *)
Definition _transform_data_container {Ctx} (self : t) (data_container : ref)
    (context : Ctx) (h : store V) : store V * Py.result ref :=
  _zip_sub_data_containers self data_container h.

Definition _fit_transform_data_container {Ctx} (self : t) (data_container : ref)
    (context : Ctx) (h : store V) : store V * Py.result (t * ref) :=
  let (h, r) := _zip_sub_data_containers self data_container h in
  (h, Py.result_map (fun dc => (self, dc)) r).

End WithItems.

End ZipData.

(** ** Vocabulary of the statements about [ZipData] *)

Module ZipSpec.
Import Numpy DataContainer.
Section WithItems.
Context {V : Type}.

(** The sub data containers [self] selects, in the order of the list:
    those whose name is in [data_sources]. *)
Definition selected (self : ZipData.t) (subs : list (string * ref)) : list ref :=
  (filter (fun sub => sub.1 ∈ ZipData.data_sources self) subs).*2.

(** [np_array] zipped with each of the arrays in turn. *)
Fixpoint zip_all (np_array : ndarray V) (to_zip : list (ndarray V))
    : Py.result (ndarray V) :=
  match to_zip with
  | [] => Py.Ok np_array
  | np_array_to_zip :: rest =>
    match ZipData._zip_np_arrays np_array np_array_to_zip with
    | Py.Ok np_array => zip_all np_array rest
    | Py.Raise e => Py.Raise e
    end
  end.

(** Two stores hold the same arrays in the containers [rs]. *)
Definition same_arrays (rs : list ref) (h1 h2 : store V) : Prop :=
  forall r, r ∈ rs ->
    data_inputs (h1 r) = data_inputs (h2 r) /\
    expected_outputs (h1 r) = expected_outputs (h2 r).

End WithItems.
End ZipSpec.

(** ** Sample steps, arrays and containers

    The concrete inputs on which the statements of Part II are run. *)

Module Examples.

(** A wrapped step that counts the fits it has received and transforms
    nothing; data and data containers are integers. *)
#[export] Instance counting_step : Step.BaseStep nat Z Z unit := {|
  Step.fit w _ _ := S w;
  Step.fit_transform w di _ := (S w, di);
  Step.handle_fit w _ _ := S w;
  Step.handle_fit_transform w dc _ := (S w, dc);
  Step.copy dc := dc
|}.

(** [[[0, 1, 2], [10, 11, 12]]] *)
Definition a_2x3 : Numpy.ndarray Z :=
  Numpy.mk [2; 3]
    (fun idx => match idx with [i; j] => Z.of_nat (10 * i + j) | _ => 0%Z end).

(** [[7, 8]] *)
Definition a_2 : Numpy.ndarray Z :=
  Numpy.mk [2] (fun idx => match idx with [i] => Z.of_nat (7 + i) | _ => 0%Z end).

(** [[[1, 2], [3, 4]]] *)
Definition a_2x2 : Numpy.ndarray Z :=
  Numpy.mk [2; 2]
    (fun idx => match idx with [i; j] => Z.of_nat (2 * i + j + 1) | _ => 0%Z end).

(** [[[100], [200]]] *)
Definition a_2x1 : Numpy.ndarray Z :=
  Numpy.mk [2; 1]
    (fun idx => match idx with [i; _] => Z.of_nat (100 * (i + 1)) | _ => 0%Z end).

(** [[70, 80]] *)
Definition b_2 : Numpy.ndarray Z :=
  Numpy.mk [2] (fun idx => match idx with [i] => Z.of_nat (70 + 10 * i) | _ => 0%Z end).

(** [[9]] *)
Definition a_1 : Numpy.ndarray Z := Numpy.mk [1] (fun _ => 9%Z).

(** [[5, 5, 5]] *)
Definition a_3 : Numpy.ndarray Z := Numpy.mk [3] (fun _ => 5%Z).

(** The scalar [4], an array of no axis. *)
Definition a_0 : Numpy.ndarray Z := Numpy.mk [] (fun _ => 4%Z).

(** A store: container [0] holds a 2x3 and a 2x1 array and three named sub
    data containers, [1], [2] and [3]. *)
Definition containers : DataContainer.store Z :=
  fun r =>
    match r with
    | 0 => DataContainer.mk a_2x3 a_2x1
             [("header"%string, 1); ("other"%string, 2); ("tail"%string, 3)]
    | 1 => DataContainer.mk a_2 b_2 []
    | 2 => DataContainer.mk a_3 a_3 []
    | 3 => DataContainer.mk a_2x2 a_1 []
    | _ => DataContainer.mk a_0 a_0 []
    end.

(** The same store with other contents in the container that is not
    selected, listed under another name. *)
Definition containers' : DataContainer.store Z :=
  fun r =>
    match r with
    | 0 => DataContainer.mk a_2x3 a_2x1
             [("header"%string, 1); ("unused"%string, 2); ("tail"%string, 3)]
    | 2 => DataContainer.mk a_0 a_2x2 [("header"%string, 0)]
    | _ => containers r
    end.

Definition zip_header_tail : ZipData.t :=
  ZipData.__init__ ["header"%string; "tail"%string].

End Examples.

(* ================================================================== *)
(** * Part II: properties                                              *)
(* ================================================================== *)

(** ** [EpochRepeater]: how often the wrapped step is fitted *)

Section TracedFacts.
Context {E St : Type}.

(** A loop whose body records [e] and updates the state by [f] records
    [e] once per iteration. *)
Lemma for_range_emit (e : E) (f : St -> St) (n : nat) (s : St) (tr : list E) :
  Traced.for_range n
    (fun s => Traced.bind (Traced.emit e) (fun _ => Traced.ret (f s))) s tr
  = (Nat.iter n f s, tr ++ repeat e n).
Proof.
  revert s tr. induction n as [|n IH]; intros s tr; simpl.
  - unfold Traced.ret. by rewrite app_nil_r.
  - unfold Traced.bind at 1. unfold Traced.emit at 1. simpl.
    rewrite IH. f_equal.
    + clear. induction n as [|n IH]; simpl; [done | by rewrite IH].
    + by rewrite <- app_assoc.
Qed.

End TracedFacts.

Section EpochRepeaterFacts.
Import EpochRepeater.
Context {W data DC Ctx : Type} `{!Step.BaseStep W data DC Ctx}.

Abbreviation ER := (EpochRepeater.t W).

Lemma should_repeat_fit_spec (self : ER) :
  _should_repeat_fit self = is_train self || repeat_in_test_mode self.
Proof. unfold _should_repeat_fit. by destruct (is_train self). Qed.

(** [fit] calls the wrapped [fit] [_get_epochs] times, always with the
    arguments it was given, and returns [self] holding the fitted step. *)
Lemma fit_trace (self : ER) (di eo : data) (tr : list (Step.call data DC Ctx)) :
  let n := Traced.range (_get_epochs self) in
  fit self di eo tr
  = (set_wrapped self (fitted n di eo (wrapped self)),
     tr ++ repeat (Step.Fit di eo) n).
Proof.
  intros n. unfold fit, call_fit. unfold Traced.bind at 1.
  rewrite for_range_emit. reflexivity.
Qed.

Lemma fit_data_container_trace (self : ER) (dc : DC) (ctx : Ctx)
    (tr : list (Step.call data DC Ctx)) :
  let n := Traced.range (_get_epochs self) in
  _fit_data_container self dc ctx tr
  = (set_wrapped self (handle_fitted n dc ctx (wrapped self)),
     tr ++ repeat (Step.HandleFit (Step.copy dc) ctx) n).
Proof.
  intros n. unfold _fit_data_container, call_handle_fit.
  unfold Traced.bind at 1. rewrite for_range_emit. reflexivity.
Qed.

Lemma fit_transform_trace (self : ER) (di eo : data)
    (tr : list (Step.call data DC Ctx)) :
  let w := fitted (fit_transform_fits self) di eo (wrapped self) in
  fit_transform self di eo tr
  = ((set_wrapped self (Step.fit_transform w di eo).1,
      (Step.fit_transform w di eo).2),
     tr ++ repeat (Step.Fit di eo) (fit_transform_fits self)
        ++ [Step.FitTransform di eo]).
Proof.
  intros w. subst w. unfold fit_transform, fit_transform_fits, call_fit.
  unfold Traced.bind at 1.
  destruct (fit_only self); simpl.
  - unfold Traced.ret at 1. unfold call_fit_transform, Traced.bind, Traced.emit,
      Traced.ret. simpl. by destruct (Step.fit_transform _ _ _).
  - rewrite for_range_emit.
    unfold call_fit_transform, Traced.bind, Traced.emit, Traced.ret. simpl.
    rewrite <- app_assoc. by destruct (Step.fit_transform _ _ _).
Qed.

Lemma fit_transform_data_container_trace (self : ER) (dc : DC) (ctx : Ctx)
    (tr : list (Step.call data DC Ctx)) :
  let n := fit_transform_data_container_fits self in
  let w := handle_fitted n dc ctx (wrapped self) in
  _fit_transform_data_container self dc ctx tr
  = ((set_wrapped self (Step.handle_fit_transform w dc ctx).1,
      (Step.handle_fit_transform w dc ctx).2),
     tr ++ repeat (Step.HandleFit (Step.copy dc) ctx) n
        ++ [Step.HandleFitTransform dc ctx]).
Proof.
  intros n w. subst n w.
  unfold _fit_transform_data_container, fit_transform_data_container_fits,
    call_handle_fit.
  unfold Traced.bind at 1.
  destruct (fit_only self); simpl.
  - unfold Traced.ret at 1.
    unfold call_handle_fit_transform, Traced.bind, Traced.emit, Traced.ret.
    simpl. by destruct (Step.handle_fit_transform _ _ _).
  - rewrite for_range_emit.
    unfold call_handle_fit_transform, Traced.bind, Traced.emit, Traced.ret.
    simpl. rewrite <- app_assoc. by destruct (Step.handle_fit_transform _ _ _).
Qed.

End EpochRepeaterFacts.

Section EpochRepeaterClaims.
Import EpochRepeater.
Context {W data DC Ctx : Type} `{!Step.BaseStep W data DC Ctx}.

Lemma fits_app (tr1 tr2 : list (Step.call data DC Ctx)) :
  Step.fits (tr1 ++ tr2) = Step.fits tr1 + Step.fits tr2.
Proof. unfold Step.fits. by rewrite List.filter_app, length_app. Qed.

Lemma fits_repeat_fit (di eo : data) (n : nat) :
  Step.fits (repeat (Step.Fit (DC:=DC) (Ctx:=Ctx) di eo) n) = n.
Proof.
  induction n as [|n IH]; [done |]. unfold Step.fits in *. simpl. by rewrite IH.
Qed.

Lemma fits_repeat_handle_fit (dc : DC) (ctx : Ctx) (n : nat) :
  Step.fits (repeat (Step.HandleFit (data:=data) dc ctx) n) = n.
Proof.
  induction n as [|n IH]; [done |]. unfold Step.fits in *. simpl. by rewrite IH.
Qed.

(** C8: [_get_epochs] is [1] whenever the step is in train mode, and the
    constructor's [epochs] in test mode with [repeat_in_test_mode = False];
    so [fit] calls the wrapped [fit] once in train mode, and [epochs] times
    (each time on the data it was given) in test mode under the default
    [repeat_in_test_mode = False]. *)
Theorem get_epochs_by_mode (self : EpochRepeater.t W) (di eo : data)
    (tr : list (Step.call data DC Ctx)) :
  (is_train self = true ->
     _get_epochs self = 1%Z /\
     fit self di eo tr
     = (set_wrapped self (Step.fit (wrapped self) di eo),
        tr ++ [Step.Fit di eo]) /\
     Step.fits (fit self di eo tr).2 = Step.fits tr + 1) /\
  (is_train self = false -> repeat_in_test_mode self = false ->
     _get_epochs self = epochs self /\
     fit self di eo tr
     = (set_wrapped self (fitted (Z.to_nat (epochs self)) di eo (wrapped self)),
        tr ++ repeat (Step.Fit di eo) (Z.to_nat (epochs self))) /\
     ((0 <= epochs self)%Z ->
        Z.of_nat (Step.fits (fit self di eo tr).2)
        = (Z.of_nat (Step.fits tr) + epochs self)%Z)).
Proof.
  split.
  - intros Htrain.
    assert (Hg : _get_epochs self = 1%Z).
    { unfold _get_epochs. by rewrite should_repeat_fit_spec, Htrain. }
    split; [done |]. rewrite fit_trace, Hg. split; [reflexivity |].
    cbn [snd]. by rewrite fits_app.
  - intros Htest Hrep.
    assert (Hg : _get_epochs self = epochs self).
    { unfold _get_epochs. by rewrite should_repeat_fit_spec, Htest, Hrep. }
    split; [done |]. rewrite fit_trace, Hg. split; [reflexivity |].
    intros Hpos. cbn [snd]. rewrite fits_app, fits_repeat_fit.
    unfold Traced.range. lia.
Qed.

(** C1 does not hold of the code: built with [epochs = 3] and left in
    train mode, [fit] calls the wrapped [fit] once, not three times (and
    once again in test mode with [repeat_in_test_mode = True]). *)
Theorem fit_in_train_mode_fits_once (w : W) (di eo : data) :
  fit (set_train (__init__ w 3 false false) true) di eo []
  = (set_wrapped (set_train (__init__ w 3 false false) true) (Step.fit w di eo),
     [Step.Fit di eo]) /\
  fit (set_train (__init__ w 3 false true) false) di eo []
  = (set_wrapped (set_train (__init__ w 3 false true) false) (Step.fit w di eo),
     [Step.Fit di eo]).
Proof. split; reflexivity. Qed.

(** C5 does not hold of the code: with [epochs = 3] and [fit_only = False]
    the two fit-transform paths fit the wrapped step a different number of
    times before the final fit-transform: [fit_transform] once in train
    mode and three times in test mode, [_fit_transform_data_container]
    twice in both. *)
Theorem fit_transform_paths_differ (w : W) (di eo : data) (dc : DC) (ctx : Ctx) :
  Step.fits (fit_transform (set_train (__init__ w 3 false false) true) di eo []).2
  = 1 /\
  Step.fits (_fit_transform_data_container
               (set_train (__init__ w 3 false false) true) dc ctx []).2
  = 2 /\
  Step.fits (fit_transform (set_train (__init__ w 3 false false) false) di eo []).2
  = 3 /\
  Step.fits (_fit_transform_data_container
               (set_train (__init__ w 3 false false) false) dc ctx []).2
  = 2.
Proof. rewrite !fit_transform_trace, !fit_transform_data_container_trace. done. Qed.

(** The two paths in general: [fit_transform] fits [_get_epochs] times,
    [_fit_transform_data_container] [epochs - 1] times, whatever the mode;
    neither fits when [fit_only] is set. *)
Lemma fit_transform_paths_fits (self : EpochRepeater.t W) (di eo : data)
    (dc : DC) (ctx : Ctx) :
  Step.fits (fit_transform self di eo []).2 = fit_transform_fits self /\
  Step.fits (_fit_transform_data_container self dc ctx []).2
  = fit_transform_data_container_fits self.
Proof.
  rewrite fit_transform_trace, fit_transform_data_container_trace. cbn [snd].
  rewrite !fits_app, fits_repeat_fit, fits_repeat_handle_fit. cbn. lia.
Qed.

End EpochRepeaterClaims.

(** ** Python lists: [zip], indexing and swapping *)

Section PyFacts.
Context {A : Type}.
Implicit Types (x : list A) (i j : nat).

Lemma index_in_range x i :
  i < length x -> Py.index x (Z.of_nat i) = Py.Ok i.
Proof.
  intros Hi. unfold Py.index.
  destruct (Z.ltb_spec (Z.of_nat i) 0); [lia |].
  destruct (Z.leb_spec 0 (Z.of_nat i)); [| lia].
  destruct (Z.ltb_spec (Z.of_nat i) (Z.of_nat (length x))); [| lia].
  simpl. by rewrite Nat2Z.id.
Qed.

Lemma getitem_in_range x i a :
  x !! i = Some a -> Py.getitem x (Z.of_nat i) = Py.Ok a.
Proof.
  intros Ha. unfold Py.getitem.
  rewrite index_in_range by (by eapply lookup_lt_Some). by rewrite Ha.
Qed.

Lemma setitem_in_range x i a :
  i < length x -> Py.setitem x (Z.of_nat i) a = Py.Ok (<[i := a]> x).
Proof. intros Hi. unfold Py.setitem. by rewrite index_in_range. Qed.

(** Swapping two positions of a list that holds both. *)
Lemma swap_in_range x i j a b :
  x !! i = Some a -> x !! j = Some b ->
  Py.swap x (Z.of_nat i) (Z.of_nat j) = Py.Ok (<[j := a]> (<[i := b]> x)).
Proof.
  intros Ha Hb. unfold Py.swap.
  rewrite (getitem_in_range _ _ _ Hb), (getitem_in_range _ _ _ Ha).
  rewrite setitem_in_range by (by eapply lookup_lt_Some).
  apply setitem_in_range. rewrite length_insert. by eapply lookup_lt_Some.
Qed.

Lemma insert_cons_Permutation x j a b :
  x !! j = Some b -> b :: <[j := a]> x ≡ₚ a :: x.
Proof.
  revert j. induction x as [|c x IH]; intros [|j] Hb; simplify_eq/=.
  - apply perm_swap.
  - rewrite perm_swap, (IH _ Hb). apply perm_swap.
Qed.

Lemma swap_Permutation x i j a b :
  x !! i = Some a -> x !! j = Some b -> <[j := a]> (<[i := b]> x) ≡ₚ x.
Proof.
  revert i j. induction x as [|c x IH]; intros [|i] [|j] Ha Hb; simplify_eq/=.
  - done.
  - by apply insert_cons_Permutation.
  - by apply insert_cons_Permutation.
  - f_equiv. by apply IH.
Qed.

End PyFacts.

Section PyMapFacts.
Context {A B : Type} (f : A -> B).

Lemma index_fmap (x : list A) (i : Z) : Py.index (f <$> x) i = Py.index x i.
Proof. unfold Py.index. by rewrite length_fmap. Qed.

Lemma getitem_fmap (x : list A) (i : Z) :
  Py.getitem (f <$> x) i = Py.result_map f (Py.getitem x i).
Proof.
  unfold Py.getitem. rewrite index_fmap.
  destruct (Py.index x i) as [k|e]; [| done].
  rewrite list_lookup_fmap. by destruct (x !! k).
Qed.

Lemma setitem_fmap (x : list A) (i : Z) (a : A) :
  Py.setitem (f <$> x) i (f a) = Py.result_map (fmap f) (Py.setitem x i a).
Proof.
  unfold Py.setitem. rewrite index_fmap.
  destruct (Py.index x i) as [k|e]; [| done].
  simpl. by rewrite list_fmap_insert.
Qed.

(** The swap only looks at positions: it commutes with [map]. *)
Lemma swap_fmap (x : list A) (i j : Z) :
  Py.swap (f <$> x) i j = Py.result_map (fmap f) (Py.swap x i j).
Proof.
  unfold Py.swap. rewrite !getitem_fmap.
  destruct (Py.getitem x j) as [xj|e]; [| done]. simpl.
  destruct (Py.getitem x i) as [xi|e]; [| done]. simpl.
  rewrite setitem_fmap.
  destruct (Py.setitem x i xj) as [x'|e]; [| done]. simpl.
  apply setitem_fmap.
Qed.

End PyMapFacts.

(** ** [shuffle]: a permutation chosen by the generator alone *)

Section ShuffleFacts.
Context {R : Random.RandomSource}.

(** The positions drawn depend on the length of the list only, so the
    shuffle commutes with [map]. *)
Lemma shuffle_loop_fmap {A B} (f : A -> B) (i : nat) (x : list A) (g : Random.rng) :
  Random.shuffle_loop i (f <$> x) g
  = ((Py.result_map (fmap f) (Random.shuffle_loop i x g).1),
     (Random.shuffle_loop i x g).2).
Proof.
  revert x g. induction i as [|i IH]; intros x g; [done |].
  cbn [Random.shuffle_loop].
  destruct (Random._randbelow (Z.of_nat (S i) + 1) g) as [j g'].
  rewrite swap_fmap.
  destruct (Py.swap x (Z.of_nat (S i)) j) as [x'|e]; [| done].
  simpl. apply IH.
Qed.

Lemma shuffle_fmap {A B} (f : A -> B) (x : list A) (g : Random.rng) :
  (Random.shuffle (f <$> x) g).1 = Py.result_map (fmap f) (Random.shuffle x g).1.
Proof. unfold Random.shuffle. by rewrite length_fmap, shuffle_loop_fmap. Qed.

Hypothesis randbelow_ok : Random.randbelow_in_range R.

(** With a generator that keeps to its contract every swap is in range:
    the loop raises nothing and permutes the list. *)
Lemma shuffle_loop_Permutation {A} (i : nat) (x : list A) (g : Random.rng) :
  i < length x ->
  exists y, (Random.shuffle_loop i x g).1 = Py.Ok y /\ y ≡ₚ x.
Proof.
  revert x g. induction i as [|i IH]; intros x g Hi; [by exists x |].
  cbn [Random.shuffle_loop].
  pose proof (randbelow_ok (Z.of_nat (S i) + 1)%Z g ltac:(lia)) as Hj.
  destruct (Random._randbelow (Z.of_nat (S i) + 1) g) as [j g']. simpl in Hj.
  destruct (lookup_lt_is_Some_2 x (S i) Hi) as [a Ha].
  destruct (lookup_lt_is_Some_2 x (Z.to_nat j) ltac:(lia)) as [b Hb].
  rewrite <- (Z2Nat.id j) by lia.
  rewrite (swap_in_range _ _ _ _ _ Ha Hb).
  destruct (IH (<[Z.to_nat j := a]> (<[S i := b]> x)) g') as (y & Hy & Hperm).
  { rewrite !length_insert. lia. }
  exists y. split; [done |]. by rewrite Hperm, swap_Permutation.
Qed.

Lemma shuffle_Permutation {A} (x : list A) (g : Random.rng) :
  exists y, (Random.shuffle x g).1 = Py.Ok y /\ y ≡ₚ x.
Proof.
  unfold Random.shuffle. destruct x as [|a x]; [by exists [] |].
  apply shuffle_loop_Permutation. simpl. lia.
Qed.

Lemma lookup_fmap_seq {A} (x : list A) :
  (fun k => x !! k) <$> seq 0 (length x) = Some <$> x.
Proof.
  apply list_eq. intros i. rewrite !list_lookup_fmap.
  destruct (decide (i < length x)) as [Hi|Hi].
  - rewrite lookup_seq_lt by done. simpl.
    destruct (lookup_lt_is_Some_2 x i Hi) as [a Ha]. by rewrite Ha.
  - rewrite lookup_seq_ge by lia. by rewrite lookup_ge_None_2 by lia.
Qed.

(** The shuffle of any list is the shuffle of its positions, read back
    through the list: there is one permutation [pi] of the positions,
    fixed by the generator and the length, such that the shuffled list
    holds at [i] the item that was at [pi(i)]. *)
Lemma shuffle_by_positions {A} (x : list A) (g : Random.rng) :
  exists (pi : list nat) (y : list A),
    (Random.shuffle (seq 0 (length x)) g).1 = Py.Ok pi /\
    pi ≡ₚ seq 0 (length x) /\
    (Random.shuffle x g).1 = Py.Ok y /\
    Some <$> y = (fun k => x !! k) <$> pi.
Proof.
  destruct (shuffle_Permutation (seq 0 (length x)) g) as (pi & Hpi & Hperm).
  destruct (shuffle_Permutation x g) as (y & Hy & _).
  exists pi, y. repeat split; try done.
  pose proof (shuffle_fmap (fun k => x !! k) (seq 0 (length x)) g) as H1.
  rewrite lookup_fmap_seq, shuffle_fmap, Hy, Hpi in H1. simpl in H1.
  congruence.
Qed.

End ShuffleFacts.

(** ** [DataShuffler.transform] *)

Section ZipFacts.
Context {V : Type}.

(** [list(zip(di, eo))] pairs the items position by position. *)
Lemma zip_two (di eo : list V) : Py.zip [di; eo] = Py.row <$> zip di eo.
Proof.
  simpl. rewrite zip_with_fmap_r, zip_with_zip.
  apply list_fmap_ext. by intros _ [a b] _.
Qed.

(** [list(zip( *rows ))] of two-item rows: the two columns, unless there is
    no row at all. *)
Lemma zip_rows (ps : list (V * V)) :
  Py.zip (Py.row <$> ps) = match ps with [] => [] | _ :: _ => [ps.*1; ps.*2] end.
Proof.
  induction ps as [|p ps IH]; [done |].
  change (Py.row <$> p :: ps) with (Py.row p :: (Py.row <$> ps)).
  cbn [Py.zip]. rewrite IH. by destruct ps.
Qed.

End ZipFacts.

Section DataShufflerFacts.
Import DataShuffler.
Context {R : Random.RandomSource} {V : Type}.

Lemma transform_state (self : DataShuffler.t) (x : list V * list V) :
  (transform self x).1 = advanced self.
Proof.
  unfold transform, advanced. destruct x as [di eo].
  destruct self as [s []]; simpl;
    (destruct (Random.shuffle _ _).1 as [d|e]; [| done]);
    by destruct (Py.zip d) as [|? [|? [|? ?]]].
Qed.

(** [transform] in terms of the shuffle of the paired items: it shuffles
    [zip(di, eo)] with a generator seeded by the advanced seed and returns
    the two columns, or raises [ValueError] when there is no pair. *)
Lemma transform_shuffled (self : DataShuffler.t) (di eo : list V) :
  (transform self (di, eo)).2
  = match (Random.shuffle (zip di eo)
             (Random.Random (seed (advanced self)))).1 with
    | Py.Ok [] => Py.Raise Py.ValueError
    | Py.Ok ps => Py.Ok (ps.*1, ps.*2)
    | Py.Raise e => Py.Raise e
    end.
Proof.
  unfold transform, advanced.
  destruct self as [s inc]; destruct inc; cbn [seed increment_seed_after_each_fit];
    rewrite zip_two, shuffle_fmap;
    (destruct (Random.shuffle (zip di eo) _).1 as [ps|e]; [| done]);
    cbn [Py.result_map]; rewrite zip_rows; by destruct ps.
Qed.

End DataShufflerFacts.

(** ** The Mersenne Twister keeps to the contract of [_randbelow] *)

Section MT19937Facts.
Import MT19937.

Lemma u32_range (x : Z) : (0 <= u32 x < 2 ^ 32)%Z.
Proof. unfold u32. apply Z.mod_pos_bound. lia. Qed.

Lemma genrand_uint32_range (self : RandomObject) :
  (0 <= (genrand_uint32 self).1 < 2 ^ 32)%Z.
Proof.
  unfold genrand_uint32.
  destruct (if (N <=? index self)%nat then _ else _) as [mt i].
  apply u32_range.
Qed.

Lemma getrandbits_words_nonneg (words : nat) (k : Z) (self : RandomObject) :
  Forall (fun w => 0 <= w)%Z (getrandbits_words words k self).1.
Proof.
  revert k self. induction words as [|words IH]; intros k self; simpl; [done |].
  pose proof (genrand_uint32_range self) as Hr.
  destruct (genrand_uint32 self) as [r self1]. simpl in Hr.
  specialize (IH (k - 32)%Z self1).
  destruct (getrandbits_words words (k - 32) self1) as [rest self2].
  simpl in *. constructor; [| done].
  destruct (k <? 32)%Z; [apply Z.shiftr_nonneg |]; lia.
Qed.

Lemma from_words_nonneg (ws : list Z) :
  Forall (fun w => 0 <= w)%Z ws -> (0 <= from_words ws)%Z.
Proof. induction 1; simpl; lia. Qed.

Lemma getrandbits_nonneg (k : Z) (self : RandomObject) :
  (0 <= (getrandbits k self).1)%Z.
Proof.
  unfold getrandbits. destruct (k <=? 32)%Z.
  - pose proof (genrand_uint32_range self) as Hr.
    destruct (genrand_uint32 self) as [r self1]. simpl in *.
    apply Z.shiftr_nonneg. lia.
  - pose proof (getrandbits_words_nonneg
                  (Z.to_nat ((k - 1) / 32 + 1)) k self) as Hws.
    destruct (getrandbits_words _ k self) as [ws self1]. simpl in *.
    by apply from_words_nonneg.
Qed.

Lemma randbelow_loop_range (tries : nat) (k n : Z) (self : RandomObject) :
  (0 < n)%Z -> (0 <= (randbelow_loop tries k n self).1 < n)%Z.
Proof.
  intros Hn. revert self. induction tries as [|tries IH]; intros self; simpl;
    pose proof (getrandbits_nonneg k self) as Hr;
    destruct (getrandbits k self) as [r self1]; simpl in Hr;
    destruct (Z.ltb_spec r n); simpl; try lia.
  apply IH.
Qed.

Lemma mt19937_in_range : Random.randbelow_in_range MT19937.source.
Proof. intros n g Hn. apply randbelow_loop_range, Hn. Qed.

End MT19937Facts.

(** ** The Mersenne Twister works on 32-bit words

    Every word of the state stays within 32 bits, so the [u32] that gives
    [genrand_uint32] its result type changes no value. *)

Section MT19937Words.
Import MT19937.

Lemma is_u32_land_ones (x : Z) : is_u32 x <-> Z.land x (Z.ones 32) = x.
Proof.
  rewrite Z.land_ones by lia. unfold is_u32. split.
  - intros Hx. by apply Z.mod_small.
  - intros <-. apply Z.mod_pos_bound. lia.
Qed.

Lemma land_lxor_distr_l (a b c : Z) :
  Z.land (Z.lxor a b) c = Z.lxor (Z.land a c) (Z.land b c).
Proof.
  apply Z.bits_inj. intros i.
  rewrite !Z.land_spec, !Z.lxor_spec, !Z.land_spec.
  by destruct (Z.testbit a i), (Z.testbit b i), (Z.testbit c i).
Qed.

Lemma is_u32_u32 (x : Z) : is_u32 (u32 x).
Proof. apply u32_range. Qed.

Lemma is_u32_lxor (a b : Z) : is_u32 a -> is_u32 b -> is_u32 (Z.lxor a b).
Proof.
  rewrite !is_u32_land_ones. intros Ha Hb.
  by rewrite land_lxor_distr_l, Ha, Hb.
Qed.

Lemma is_u32_lor (a b : Z) : is_u32 a -> is_u32 b -> is_u32 (Z.lor a b).
Proof.
  rewrite !is_u32_land_ones. intros Ha Hb.
  by rewrite Z.land_lor_distr_l, Ha, Hb.
Qed.

Lemma is_u32_land_r (a b : Z) : is_u32 b -> is_u32 (Z.land a b).
Proof.
  rewrite !is_u32_land_ones. intros Hb. by rewrite <- Z.land_assoc, Hb.
Qed.

Lemma is_u32_shiftr (a n : Z) : is_u32 a -> (0 <= n)%Z -> is_u32 (Z.shiftr a n).
Proof.
  unfold is_u32. intros Ha Hn. rewrite Z.shiftr_div_pow2 by done.
  assert (0 < 2 ^ n)%Z by (apply Z.pow_pos_nonneg; lia).
  split.
  - apply Z.div_pos; lia.
  - apply Z.le_lt_trans with a; [| lia].
    apply Z.div_le_upper_bound; [lia |]. nia.
Qed.

Lemma is_u32_temper (y : Z) : is_u32 y -> is_u32 (temper y).
Proof.
  intros Hy. unfold temper.
  repeat first [ apply is_u32_lxor | apply is_u32_land_r
               | apply is_u32_shiftr | done | lia ]; unfold is_u32; lia.
Qed.

Lemma words_ok_insert (mt : list Z) (i : nat) (x : Z) :
  words_ok mt -> is_u32 x -> words_ok (<[i := x]> mt).
Proof.
  intros [Hlen Hall] Hx. split; [by rewrite length_insert |].
  by apply Forall_insert.
Qed.

Lemma words_ok_lookup (mt : list Z) (i : nat) : words_ok mt -> is_u32 (mt !!! i).
Proof.
  intros [_ Hall]. destruct (mt !! i) as [x|] eqn:Hi.
  - rewrite (list_lookup_total_correct _ _ _ Hi).
    by eapply Forall_lookup_1.
  - rewrite list_lookup_total_alt, Hi. simpl. unfold is_u32. lia.
Qed.

Lemma words_ok_foldl {A} (f : list Z -> A -> list Z) (xs : list A) (mt : list Z) :
  (forall mt x, words_ok mt -> words_ok (f mt x)) ->
  words_ok mt -> words_ok (foldl f mt xs).
Proof.
  intros Hf. revert mt. induction xs as [|x xs IH]; intros mt Hmt; simpl; auto.
Qed.

Lemma init_genrand_ok (s : Z) : is_u32 s -> words_ok (init_genrand s).
Proof.
  intros Hs. unfold init_genrand. apply words_ok_foldl.
  - intros mt mti Hmt. apply words_ok_insert; [done | apply is_u32_u32].
  - apply words_ok_insert; [| done]. split; [by rewrite length_replicate |].
    apply Forall_replicate. unfold is_u32. lia.
Qed.

Lemma init_by_array_mix_ok (key : list Z) (s : list Z * nat * nat) :
  words_ok s.1.1 -> words_ok (init_by_array_mix key s).1.1.
Proof.
  destruct s as [[mt i] j]. cbn [fst]. intros Hmt. unfold init_by_array_mix.
  destruct (N <=? S i)%nat; cbn [fst].
  - apply words_ok_insert; [| apply words_ok_lookup];
      apply words_ok_insert; try done; apply is_u32_u32.
  - apply words_ok_insert; [done | apply is_u32_u32].
Qed.

Lemma init_by_array_finish_ok (s : list Z * nat) :
  words_ok s.1 -> words_ok (init_by_array_finish s).1.
Proof.
  destruct s as [mt i]. cbn [fst]. intros Hmt. unfold init_by_array_finish.
  destruct (N <=? S i)%nat; cbn [fst].
  - apply words_ok_insert; [| apply words_ok_lookup];
      apply words_ok_insert; try done; apply is_u32_u32.
  - apply words_ok_insert; [done | apply is_u32_u32].
Qed.

Lemma init_by_array_ok (key : list Z) : words_ok (init_by_array key).
Proof.
  unfold init_by_array.
  pose proof (Nat.iter_invariant (Nat.max N (length key)) _
                (init_by_array_mix key) (fun s => words_ok s.1.1)
                (init_by_array_mix_ok key) (init_genrand 19650218, 1, 0)) as H1.
  destruct (Nat.iter (Nat.max N (length key)) _ _) as [[mt i] j].
  pose proof (Nat.iter_invariant (N - 1) _ init_by_array_finish
                (fun s => words_ok s.1) init_by_array_finish_ok (mt, i)) as H2.
  destruct (Nat.iter (N - 1) _ _) as [mt' i'].
  apply words_ok_insert; [| unfold is_u32; lia].
  apply H2, H1. apply init_genrand_ok. unfold is_u32. lia.
Qed.

Lemma twist_ok (mt : list Z) (kk kk1 km : nat) :
  words_ok mt -> words_ok (twist mt kk kk1 km).
Proof.
  intros Hmt. unfold twist. apply words_ok_insert; [done |].
  apply is_u32_lxor; [apply is_u32_lxor |].
  - by apply words_ok_lookup.
  - apply is_u32_shiftr; [| lia].
    apply is_u32_lor; apply is_u32_land_r; unfold is_u32, UPPER_MASK, LOWER_MASK; lia.
  - unfold mag01, MATRIX_A, is_u32. destruct (_ =? _)%Z; lia.
Qed.

Lemma generate_ok (mt : list Z) : words_ok mt -> words_ok (generate mt).
Proof.
  intros Hmt. unfold generate. apply twist_ok.
  apply words_ok_foldl; [intros; by apply twist_ok |].
  apply words_ok_foldl; [intros; by apply twist_ok | done].
Qed.

Lemma seed_ok (a : Z) : words_ok (state (seed a)).
Proof. apply init_by_array_ok. Qed.

(** On such a state the output word is the tempered state word as it is,
    and the next state is such a state again. *)
Lemma genrand_uint32_ok (self : RandomObject) :
  words_ok (state self) ->
  words_ok (state (genrand_uint32 self).2) /\
  exists mt i,
    (mt, i) = (if (N <=? index self)%nat then (generate (state self), 0)
               else (state self, index self)) /\
    (genrand_uint32 self).1 = temper (mt !!! i).
Proof.
  intros Hs. unfold genrand_uint32.
  destruct (N <=? index self)%nat; cbn [fst snd state].
  - split; [by apply generate_ok |]. eexists _, _. split; [done |].
    apply Z.mod_small, is_u32_temper, words_ok_lookup, generate_ok, Hs.
  - split; [done |]. eexists _, _. split; [done |].
    apply Z.mod_small, is_u32_temper, words_ok_lookup, Hs.
Qed.

Lemma getrandbits_words_ok (words : nat) (k : Z) (self : RandomObject) :
  words_ok (state self) ->
  words_ok (state (getrandbits_words words k self).2).
Proof.
  revert k self. induction words as [|words IH]; intros k self Hs; [done |].
  cbn [getrandbits_words].
  pose proof (proj1 (genrand_uint32_ok self Hs)) as H1.
  destruct (genrand_uint32 self) as [r self1]. cbn [snd] in H1.
  specialize (IH (k - 32)%Z self1 H1).
  by destruct (getrandbits_words words (k - 32) self1) as [rest self2].
Qed.

Lemma getrandbits_ok (k : Z) (self : RandomObject) :
  words_ok (state self) -> words_ok (state (getrandbits k self).2).
Proof.
  intros Hs. unfold getrandbits. destruct (k <=? 32)%Z.
  - pose proof (proj1 (genrand_uint32_ok self Hs)) as H1.
    by destruct (genrand_uint32 self) as [r self1].
  - pose proof (getrandbits_words_ok (Z.to_nat ((k - 1) / 32 + 1)) k self Hs) as H1.
    by destruct (getrandbits_words _ k self) as [ws self1].
Qed.

(** Every generator that [shuffle] draws from runs on such a state: a
    seeded one does, and [_randbelow] keeps it so. *)
Lemma randbelow_ok (n : Z) (self : RandomObject) :
  words_ok (state self) -> words_ok (state (_randbelow n self).2).
Proof.
  unfold _randbelow. generalize (Py.bit_length n) as k. intros k.
  generalize max_rejections as tries. intros tries. revert self.
  induction tries as [|tries IH]; intros self Hs; cbn [randbelow_loop];
    pose proof (getrandbits_ok k self Hs) as H1;
    destruct (getrandbits k self) as [r self1]; cbn [snd] in H1;
    destruct (r <? n)%Z; auto.
Qed.

End MT19937Words.

(** ** The cut-off of the rejection loop

    [exhausted] is set by the cut-off alone and never cleared.  A call of
    [_randbelow] that leaves it unset is a run of the unbounded Python
    loop, and allowing more rejections does not change it. *)

Section MT19937CutOff.
Import MT19937.

Lemma genrand_uint32_exhausted (self : RandomObject) :
  exhausted (genrand_uint32 self).2 = exhausted self.
Proof.
  unfold genrand_uint32. by destruct (N <=? index self)%nat.
Qed.

Lemma getrandbits_words_exhausted (words : nat) (k : Z) (self : RandomObject) :
  exhausted (getrandbits_words words k self).2 = exhausted self.
Proof.
  revert k self. induction words as [|words IH]; intros k self; [done |].
  cbn [getrandbits_words].
  pose proof (genrand_uint32_exhausted self) as H1.
  destruct (genrand_uint32 self) as [r self1]. cbn [snd] in H1.
  specialize (IH (k - 32)%Z self1).
  destruct (getrandbits_words words (k - 32) self1) as [rest self2].
  cbn [snd] in *. congruence.
Qed.

Lemma getrandbits_exhausted (k : Z) (self : RandomObject) :
  exhausted (getrandbits k self).2 = exhausted self.
Proof.
  unfold getrandbits. destruct (k <=? 32)%Z.
  - pose proof (genrand_uint32_exhausted self) as H1.
    by destruct (genrand_uint32 self) as [r self1].
  - pose proof (getrandbits_words_exhausted
                  (Z.to_nat ((k - 1) / 32 + 1)) k self) as H1.
    by destruct (getrandbits_words _ k self) as [ws self1].
Qed.

Lemma randbelow_loop_exhausted (tries : nat) (k n : Z) (self : RandomObject) :
  exhausted self = true -> exhausted (randbelow_loop tries k n self).2 = true.
Proof.
  revert self. induction tries as [|tries IH]; intros self Hs;
    cbn [randbelow_loop];
    pose proof (getrandbits_exhausted k self) as H1;
    destruct (getrandbits k self) as [r self1]; cbn [snd] in H1;
    destruct (r <? n)%Z; cbn [snd exhausted]; try congruence.
  apply IH. congruence.
Qed.

Lemma randbelow_loop_run (tries : nat) (k n : Z) (self : RandomObject) :
  exhausted (randbelow_loop tries k n self).2 = false ->
  randbelow_run k n self (randbelow_loop tries k n self).1
    (randbelow_loop tries k n self).2.
Proof.
  revert self. induction tries as [|tries IH]; intros self;
    cbn [randbelow_loop];
    destruct (getrandbits k self) as [r self1] eqn:Hg;
    destruct (Z.ltb_spec r n); cbn [fst snd exhausted]; intros Hex;
    try discriminate.
  - by apply randbelow_accept.
  - by apply randbelow_accept.
  - eapply randbelow_reject; [done | done |]. by apply IH.
Qed.

Lemma randbelow_loop_more (tries more : nat) (k n : Z) (self : RandomObject) :
  exhausted (randbelow_loop tries k n self).2 = false ->
  randbelow_loop (tries + more) k n self = randbelow_loop tries k n self.
Proof.
  revert self. induction tries as [|tries IH]; intros self;
    cbn [randbelow_loop Nat.add];
    destruct (getrandbits k self) as [r self1] eqn:Hg.
  - destruct more; cbn [randbelow_loop]; rewrite Hg;
      destruct (r <? n)%Z; cbn [snd exhausted]; intros Hex;
      done || discriminate.
  - destruct (r <? n)%Z; [done |]. apply IH.
Qed.

(** The Python loop returns one result at most. *)
Lemma randbelow_run_functional (k n : Z) (self : RandomObject) r1 self1 r2 self2 :
  randbelow_run k n self r1 self1 -> randbelow_run k n self r2 self2 ->
  r1 = r2 /\ self1 = self2.
Proof.
  intros H1. revert r2 self2.
  induction H1 as [self r self' Hg Hr|self r0 self0 r self' Hg Hr _ IH];
    intros r2 self2 H2; inversion H2; subst;
    match goal with
    | Ha : getrandbits k self = _, Hb : getrandbits k self = _ |- _ =>
        rewrite Ha in Hb; injection Hb as <- <-
    end; try lia; auto.
Qed.

Lemma shuffle_loop_exhausted {A} (i : nat) (x : list A) (self : RandomObject) :
  exhausted self = true ->
  exhausted (Random.shuffle_loop (R:=MT19937.source) i x self).2 = true.
Proof.
  revert x self. induction i as [|i IH]; intros x self Hs; [done |].
  cbn [Random.shuffle_loop].
  pose proof (randbelow_loop_exhausted max_rejections
                (Py.bit_length (Z.of_nat (S i) + 1)) (Z.of_nat (S i) + 1)
                self Hs) as H1.
  change (@Random._randbelow source (Z.of_nat (S i) + 1) self)
    with (_randbelow (Z.of_nat (S i) + 1) self).
  unfold _randbelow.
  destruct (randbelow_loop _ _ _ self) as [j self1]. cbn [snd] in H1.
  destruct (Py.swap x (Z.of_nat (S i)) j) as [x1|e]; [by apply IH | done].
Qed.

(** A shuffle that ends with [exhausted] unset is a shuffle by the
    unbounded Python loop. *)
Lemma shuffle_loop_run {A} (i : nat) (x : list A) (self : RandomObject) :
  exhausted (Random.shuffle_loop (R:=MT19937.source) i x self).2 = false ->
  shuffle_run i x self
    (Random.shuffle_loop (R:=MT19937.source) i x self).1
    (Random.shuffle_loop (R:=MT19937.source) i x self).2.
Proof.
  revert x self. induction i as [|i IH]; intros x self; [constructor |].
  cbn [Random.shuffle_loop].
  change (@Random._randbelow source (Z.of_nat (S i) + 1) self)
    with (_randbelow (Z.of_nat (S i) + 1) self).
  unfold _randbelow.
  pose proof (randbelow_loop_run max_rejections
                (Py.bit_length (Z.of_nat (S i) + 1)) (Z.of_nat (S i) + 1)
                self) as Hrun.
  destruct (randbelow_loop _ _ _ self) as [j self1]. cbn [fst snd] in Hrun.
  destruct (Py.swap x (Z.of_nat (S i)) j) as [x1|e] eqn:Hswap.
  - intros Hex. destruct (exhausted self1) eqn:H1.
    + by rewrite shuffle_loop_exhausted in Hex.
    + eapply shuffle_run_swap; [by apply Hrun | done | by apply IH].
  - cbn [fst snd]. intros Hex. eapply shuffle_run_raise; [by apply Hrun | done].
Qed.

End MT19937CutOff.

(** ** [DataShuffler]: what the specification states *)

Section DataShufflerClaims.
Import DataShuffler.
Context {R : Random.RandomSource} {V : Type}.

(** C3: for equal-length non-empty [data_inputs] and [expected_outputs],
    [transform] returns two lists of the same lengths, and one permutation
    [pi] of the positions gives both: the output holds at [i] the data
    input and the expected output that stood at [pi(i)], so every pair
    stays together.  The generator is any that keeps to the contract of
    [_randbelow]. *)
Theorem transform_same_permutation (self : DataShuffler.t) (di eo : list V) :
  Random.randbelow_in_range R ->
  length di = length eo -> di <> [] ->
  exists (pi : list nat) (out_di out_eo : list V),
    (transform self (di, eo)).2 = Py.Ok (out_di, out_eo) /\
    pi ≡ₚ seq 0 (length di) /\
    length out_di = length di /\ length out_eo = length eo /\
    forall i k, pi !! i = Some k ->
      out_di !! i = di !! k /\ out_eo !! i = eo !! k.
Proof.
  intros Hok Hlen Hne.
  destruct (shuffle_by_positions Hok (zip di eo)
              (Random.Random (seed (advanced self))))
    as (pi & ps & _ & Hperm & Hps & Hpos).
  assert (Hzl : length (zip di eo) = length di).
  { rewrite length_zip_with. lia. }
  assert (Hpl : length ps = length di).
  { apply (f_equal length) in Hpos. rewrite !length_fmap in Hpos.
    rewrite Hpos, Hperm, length_seq. done. }
  exists pi, (ps.*1), (ps.*2). rewrite transform_shuffled, Hps.
  split; [| split; [by rewrite <- Hzl | split; [| split]]].
  - destruct ps; [| done]. destruct di; [done | discriminate].
  - by rewrite length_fmap.
  - rewrite length_fmap. lia.
  - intros i k Hk.
    assert (Hi : ps !! i = zip di eo !! k).
    { apply (f_equal (fun l => l !! i)) in Hpos.
      rewrite !list_lookup_fmap, Hk in Hpos. simpl in Hpos.
      destruct (ps !! i); by simplify_eq/=. }
    rewrite !list_lookup_fmap, Hi, <- !list_lookup_fmap.
    rewrite fst_zip, snd_zip by lia. done.
Qed.

(** C9: on the pair of empty sequences [transform] raises: the transposed
    empty list has no items for the two-name unpacking, so the call ends
    in [ValueError] and returns no pair. *)
Theorem transform_empty_raises (self : DataShuffler.t) :
  (transform (V:=V) self ([], [])).2 = Py.Raise Py.ValueError.
Proof. by destruct self as [s []]. Qed.

(** C2, as the code has it: which generator a call shuffles with is fixed
    by the seed the step was built with, its flag
    [increment_seed_after_each_fit] and the number of calls made before.
    After [k] calls a step without the flag is unchanged, and its next
    call returns what its first call returned; a step with the flag holds
    [seed + k], and its next call returns what a step without the flag and
    with seed [seed + k + 1] returns. *)
Theorem transform_seed_schedule (self : DataShuffler.t) (x : list V * list V)
    (k : nat) :
  (increment_seed_after_each_fit self = false ->
     Nat.iter k (fun s => (transform s x).1) self = self /\
     (transform (Nat.iter k (fun s => (transform s x).1) self) x).2
     = (transform self x).2) /\
  (increment_seed_after_each_fit self = true ->
     Nat.iter k (fun s => (transform s x).1) self
     = DataShuffler.mk (seed self + Z.of_nat k) true /\
     (transform (Nat.iter k (fun s => (transform s x).1) self) x).2
     = (transform (DataShuffler.mk (seed self + Z.of_nat k + 1) false) x).2).
Proof.
  destruct self as [s inc]. split; intros Hinc; simpl in Hinc; subst inc.
  - assert (Hk : Nat.iter k (fun s0 => (transform s0 x).1) (DataShuffler.mk s false)
                 = DataShuffler.mk s false).
    { induction k as [|k IH]; [done |]. simpl. rewrite IH.
      by rewrite transform_state. }
    by rewrite Hk.
  - assert (Hk : Nat.iter k (fun s0 => (transform s0 x).1) (DataShuffler.mk s true)
                 = DataShuffler.mk (s + Z.of_nat k) true).
    { induction k as [|k IH]; simpl.
      - f_equal. lia.
      - rewrite IH, transform_state. unfold advanced. simpl. f_equal. lia. }
    rewrite Hk. split; [done |]. destruct x as [di eo].
    by rewrite !transform_shuffled.
Qed.

End DataShufflerClaims.

(** C10: a [DataShuffler] built with [seed=None] is the one built with
    [seed=42]: the constructor stores 42 for [None], so the two steps are
    equal and every call on them gives the same outcome. *)
Theorem none_seed_is_42 (increment_seed_after_each_fit : bool) :
  DataShuffler.__init__ None increment_seed_after_each_fit
  = DataShuffler.__init__ (Some 42%Z) increment_seed_after_each_fit /\
  DataShuffler.seed (DataShuffler.__init__ None increment_seed_after_each_fit)
  = 42%Z /\
  forall (R : Random.RandomSource) (V : Type) (x : list V * list V),
    DataShuffler.transform
      (DataShuffler.__init__ None increment_seed_after_each_fit) x
    = DataShuffler.transform
        (DataShuffler.__init__ (Some 42%Z) increment_seed_after_each_fit) x.
Proof. by repeat split. Qed.

(** C7: [TrainShuffled(wrapped, seed)] is a pipeline of exactly two steps:
    a [TrainOnlyWrapper] around the [DataShuffler] built with that seed,
    then the wrapped step. *)
Theorem train_shuffled_steps {W} (wrapped : Pipeline.step W) (seed : option Z) :
  Pipeline.steps (TrainShuffled.__init__ wrapped seed)
  = Some [Pipeline.TrainOnlyWrapper
            (Pipeline.DataShuffler (DataShuffler.__init__ seed true));
          wrapped].
Proof. reflexivity. Qed.

(** ** NumPy: shapes and items of the zipped array *)

Section NumpyFacts.
Import Numpy.
Context {V : Type}.
Implicit Types (a b : ndarray V) (s : list nat).

Lemma but_last_snoc {A} (l : list A) (x : A) : but_last (l ++ [x]) = l.
Proof.
  unfold but_last. rewrite length_app. simpl.
  replace (length l + 1 - 1) with (length l) by lia. apply take_app_length.
Qed.

(** A tuple read at [-1]: its last item, or [IndexError] when it is empty. *)
Lemma getitem_last {A} (l : list A) :
  Py.getitem l (-1)
  = match last l with Some x => Py.Ok x | None => Py.Raise Py.IndexError end.
Proof.
  destruct l as [|x0 l] using rev_ind; [done |].
  rewrite last_snoc. unfold Py.getitem, Py.index. rewrite length_app. simpl.
  destruct (Z.leb_spec 0 (-1 + Z.of_nat (length l + 1))); [| lia].
  destruct (Z.ltb_spec (-1 + Z.of_nat (length l + 1))
              (Z.of_nat (length l + 1))); [| lia].
  simpl. replace (Z.to_nat (-1 + Z.of_nat (length l + 1))) with (length l) by lia.
  by rewrite list_lookup_middle.
Qed.

Lemma shape_expand_dims_iter (n : nat) b :
  shape (Nat.iter n expand_dims b) = shape b ++ replicate n 1.
Proof.
  induction n as [|n IH]; simpl; [by rewrite app_nil_r |].
  rewrite IH, <- app_assoc. f_equal.
  change [1] with (replicate 1 1). rewrite <- replicate_add.
  by replace (n + 1) with (S n) by lia.
Qed.

(** The [while] loop of [_zip_np_arrays] adds the missing axes, all of
    size one and all at the end, and stops within its fuel. *)
Lemma expand_loop_iter (fuel : nat) a b :
  ndim a - ndim b <= fuel ->
  ZipData.expand_loop fuel a b = Nat.iter (ndim a - ndim b) expand_dims b.
Proof.
  revert b. induction fuel as [|fuel IH]; intros b Hfuel; simpl.
  - destruct (Nat.ltb_spec (ndim b) (ndim a)); [lia |].
    by replace (ndim a - ndim b) with 0 by lia.
  - destruct (Nat.ltb_spec (ndim b) (ndim a)) as [Hlt|Hge].
    + assert (Hn : ndim (expand_dims b) = S (ndim b)).
      { unfold ndim. simpl. rewrite length_app. simpl. lia. }
      rewrite IH by lia. rewrite Hn.
      replace (ndim a - ndim b) with (S (ndim a - S (ndim b))) by lia.
      by rewrite Nat.iter_succ_r.
    + by replace (ndim a - ndim b) with 0 by lia.
Qed.


End NumpyFacts.

Section ZipArraysClaim.
Import Numpy.
Context {V : Type}.



End ZipArraysClaim.

(** ** [ZipData] on the store of containers *)

Section ZipDataFacts.
Import Numpy DataContainer ZipData ZipSpec.
Context {V : Type}.
Implicit Types (h : store V) (dc l : ref).

Lemma write_same (r : ref) (c : DataContainer.t V) h : write r c h r = c.
Proof. unfold write. by rewrite Nat.eqb_refl. Qed.

Lemma write_other (r r' : ref) (c : DataContainer.t V) h :
  r' <> r -> write r c h r' = h r'.
Proof. intros Hne. unfold write. by destruct (Nat.eqb_spec r' r). Qed.

(** The first loop keeps the sub data containers whose name is listed, in
    the order of the list. *)
Lemma sub_data_containers_to_zip_selected (self : ZipData.t)
    (subs : list (string * ref)) :
  sub_data_containers_to_zip self subs = selected self subs.
Proof.
  unfold sub_data_containers_to_zip, selected.
  assert (Hacc : forall acc,
    foldl (fun to_zip sub =>
             if decide (sub.1 ∈ data_sources self) then to_zip ++ [sub.2]
             else to_zip) acc subs
    = acc ++ (filter (fun sub => sub.1 ∈ data_sources self) subs).*2).
  { induction subs as [|sub subs IH]; intros acc; simpl.
    - by rewrite app_nil_r.
    - rewrite IH. destruct (decide (sub.1 ∈ data_sources self)) as [Hin|Hnin].
      + rewrite filter_cons_True by done. simpl. by rewrite <- app_assoc.
      + by rewrite filter_cons_False by done. }
  apply Hacc.
Qed.

(** One zip writes to [dc] alone, leaves its sub data containers as they
    are, and returns [dc] unless it raises. *)
Lemma zip_data_container_frame dc l h :
  (forall r, r <> dc -> (_zip_data_container dc l h).1 r = h r) /\
  sub_data_containers ((_zip_data_container dc l h).1 dc)
  = sub_data_containers (h dc) /\
  ((_zip_data_container dc l h).2 = Py.Ok dc \/
   exists e, (_zip_data_container dc l h).2 = Py.Raise e).
Proof.
  unfold _zip_data_container.
  destruct (_zip_np_arrays (data_inputs (h dc)) (data_inputs (h l)))
    as [di|e]; simpl; [| by eauto].
  destruct (_zip_np_arrays _ _) as [eo|e]; simpl.
  - unfold set_expected_outputs, set_data_inputs.
    split; [| split; [| by left]].
    + intros r Hr. by rewrite !write_other.
    + by rewrite !write_same.
  - unfold set_data_inputs. split; [| split; [| by eauto]].
    + intros r Hr. by rewrite write_other.
    + by rewrite write_same.
Qed.

Lemma zip_loop_frame (ls : list ref) dc h :
  (forall r, r <> dc -> (zip_loop ls dc h).1 r = h r) /\
  sub_data_containers ((zip_loop ls dc h).1 dc) = sub_data_containers (h dc) /\
  ((zip_loop ls dc h).2 = Py.Ok dc \/ exists e, (zip_loop ls dc h).2 = Py.Raise e).
Proof.
  revert h. induction ls as [|l ls IH]; intros h; simpl; [by eauto |].
  destruct (zip_data_container_frame dc l h) as (Hfr & Hsub & Hres).
  destruct (_zip_data_container dc l h) as [h1 [dc1|e]]; simpl in *.
  - destruct Hres as [[= ->]|[e [=]]].
    destruct (IH h1) as (Hfr' & Hsub' & Hres').
    split; [| split; [congruence | done]].
    intros r Hr. rewrite Hfr' by done. by apply Hfr.
  - by eauto.
Qed.

(** One zip from another container [l <> dc], array by array. *)
Lemma zip_data_container_other dc l h :
  l <> dc ->
  _zip_data_container dc l h
  = match _zip_np_arrays (data_inputs (h dc)) (data_inputs (h l)) with
    | Py.Raise e => (h, Py.Raise e)
    | Py.Ok di =>
      match _zip_np_arrays (expected_outputs (h dc)) (expected_outputs (h l)) with
      | Py.Raise e => (set_data_inputs dc di h, Py.Raise e)
      | Py.Ok eo =>
        (set_expected_outputs dc eo (set_data_inputs dc di h), Py.Ok dc)
      end
    end.
Proof.
  intros Hl. unfold _zip_data_container.
  destruct (_zip_np_arrays (data_inputs (h dc)) _) as [di|e]; [| done].
  unfold set_data_inputs at 1 2. rewrite write_same, write_other by done.
  reflexivity.
Qed.

End ZipDataFacts.

Section ZipDataContent.
Import Numpy DataContainer ZipData ZipSpec.
Context {V : Type}.
Implicit Types (h : store V) (dc l : ref).

(** Zipping from containers other than [dc] itself: the data inputs of
    [dc] are zipped with the data inputs of each, its expected outputs
    with the expected outputs of each, as the store held them before. *)
Lemma zip_loop_content (ls : list ref) dc h :
  dc ∉ ls ->
  match zip_all (data_inputs (h dc)) ((fun l => data_inputs (h l)) <$> ls),
        zip_all (expected_outputs (h dc))
                ((fun l => expected_outputs (h l)) <$> ls) with
  | Py.Ok di, Py.Ok eo =>
    (zip_loop ls dc h).2 = Py.Ok dc /\
    data_inputs ((zip_loop ls dc h).1 dc) = di /\
    expected_outputs ((zip_loop ls dc h).1 dc) = eo
  | _, _ => exists e, (zip_loop ls dc h).2 = Py.Raise e
  end.
Proof.
  revert h. induction ls as [|l ls IH]; intros h Hdc; [done |].
  apply not_elem_of_cons in Hdc as [Hl Hdc].
  cbn [zip_loop fmap list_fmap zip_all]. rewrite zip_data_container_other by done.
  destruct (_zip_np_arrays (data_inputs (h dc)) (data_inputs (h l)))
    as [di1|e1]; [| by eauto].
  destruct (_zip_np_arrays (expected_outputs (h dc)) (expected_outputs (h l)))
    as [eo1|e2].
  2: { destruct (zip_all di1 _); by eauto. }
  set (h1 := set_expected_outputs dc eo1 (set_data_inputs dc di1 h)).
  assert (Hdi : data_inputs (h1 dc) = di1).
  { unfold h1, set_expected_outputs, set_data_inputs. by rewrite !write_same. }
  assert (Heo : expected_outputs (h1 dc) = eo1).
  { unfold h1, set_expected_outputs. by rewrite write_same. }
  assert (Hrest : forall r, r ∈ ls -> h1 r = h r).
  { intros r Hr. unfold h1, set_expected_outputs, set_data_inputs.
    rewrite !write_other; [done | |]; intros ->; done. }
  specialize (IH h1 Hdc). rewrite Hdi, Heo in IH.
  rewrite (list_fmap_ext (fun l => data_inputs (h1 l))
             (fun l => data_inputs (h l)) ls) in IH.
  2: { intros i r Hr. rewrite Hrest; [done |]. by eapply list_elem_of_lookup_2. }
  rewrite (list_fmap_ext (fun l => expected_outputs (h1 l))
             (fun l => expected_outputs (h l)) ls) in IH.
  2: { intros i r Hr. rewrite Hrest; [done |]. by eapply list_elem_of_lookup_2. }
  exact IH.
Qed.

Lemma same_arrays_set_data_inputs (rs : list ref) dc (di : ndarray V) h1 h2 :
  same_arrays rs h1 h2 ->
  same_arrays rs (set_data_inputs dc di h1) (set_data_inputs dc di h2).
Proof.
  intros Hs r Hr. unfold set_data_inputs, write.
  destruct (Nat.eqb_spec r dc) as [->|]; simpl; [| by apply Hs].
  split; [done |]. by apply Hs.
Qed.

Lemma same_arrays_set_expected_outputs (rs : list ref) dc (eo : ndarray V) h1 h2 :
  same_arrays rs h1 h2 ->
  same_arrays rs (set_expected_outputs dc eo h1) (set_expected_outputs dc eo h2).
Proof.
  intros Hs r Hr. unfold set_expected_outputs, write.
  destruct (Nat.eqb_spec r dc) as [->|]; simpl; [| by apply Hs].
  split; [| done]. by apply Hs.
Qed.

(** A zip reads nothing but the arrays of the two containers it is given. *)
Lemma zip_data_container_same_arrays (rs : list ref) dc l h1 h2 :
  same_arrays rs h1 h2 -> dc ∈ rs -> l ∈ rs ->
  (_zip_data_container dc l h1).2 = (_zip_data_container dc l h2).2 /\
  same_arrays rs (_zip_data_container dc l h1).1 (_zip_data_container dc l h2).1.
Proof.
  intros Hs Hdc Hl. unfold _zip_data_container.
  destruct (Hs dc Hdc) as [Hdi _]. destruct (Hs l Hl) as [Hdil _].
  rewrite <- Hdi, <- Hdil.
  destruct (_zip_np_arrays (data_inputs (h1 dc)) (data_inputs (h1 l)))
    as [di|e]; [| done].
  pose proof (same_arrays_set_data_inputs rs dc di h1 h2 Hs) as Hs1.
  destruct (Hs1 dc Hdc) as [_ Heo]. destruct (Hs1 l Hl) as [_ Heol].
  rewrite <- Heo, <- Heol.
  destruct (_zip_np_arrays _ _) as [eo|e]; [| done].
  split; [done |]. by apply same_arrays_set_expected_outputs.
Qed.

Lemma zip_loop_same_arrays (rs ls : list ref) dc h1 h2 :
  same_arrays rs h1 h2 -> dc ∈ rs -> ls ⊆ rs ->
  (zip_loop ls dc h1).2 = (zip_loop ls dc h2).2 /\
  same_arrays rs (zip_loop ls dc h1).1 (zip_loop ls dc h2).1.
Proof.
  revert h1 h2. induction ls as [|l ls IH]; intros h1 h2 Hs Hdc Hls; [done |].
  cbn [zip_loop].
  destruct (zip_data_container_same_arrays rs dc l h1 h2 Hs Hdc) as [Hr Hs'].
  { apply Hls. by left. }
  destruct (zip_data_container_frame dc l h1) as (_ & _ & Hres).
  destruct (_zip_data_container dc l h1) as [h1' r1],
           (_zip_data_container dc l h2) as [h2' r2].
  simpl in *. subst r2. destruct r1 as [dc'|e]; [| done].
  destruct Hres as [[= ->]|[e [=]]].
  apply IH; [done | done |]. intros r Hr. apply Hls. by right.
Qed.

End ZipDataContent.

Section ZipDataClaim.
Import Numpy DataContainer ZipData ZipSpec.
Context {V : Type}.

(** C6: [ZipData]'s transform zips into the container exactly the sub data
    containers whose name is in [data_sources], in the order of its
    [sub_data_containers] list.  It writes to the container [dc] alone and
    there to [data_inputs] and [expected_outputs] alone: every other
    container and the [sub_data_containers] of [dc] stay as they were,
    whether the call returns [dc] or raises.  When [dc] is not one of the
    selected containers, each of its two arrays ends up zipped with the
    same array of every selected container.  Containers that are not
    selected do not matter: stores that select the same containers and
    hold the same arrays in them and in [dc] give the same outcome. *)
Theorem zip_sub_data_containers_frame (self : ZipData.t) (dc : ref)
    (h : store V) :
  let sel := selected self (sub_data_containers (h dc)) in
  let run := _zip_sub_data_containers self dc in
  _transform_data_container self dc tt h = run h /\
  run h = zip_loop sel dc h /\
  (forall r, r <> dc -> (run h).1 r = h r) /\
  sub_data_containers ((run h).1 dc) = sub_data_containers (h dc) /\
  ((run h).2 = Py.Ok dc \/ exists e, (run h).2 = Py.Raise e) /\
  (dc ∉ sel ->
   forall di eo,
     zip_all (data_inputs (h dc)) ((fun l => data_inputs (h l)) <$> sel)
     = Py.Ok di ->
     zip_all (expected_outputs (h dc)) ((fun l => expected_outputs (h l)) <$> sel)
     = Py.Ok eo ->
     (run h).2 = Py.Ok dc /\
     (run h).1 dc = DataContainer.mk di eo (sub_data_containers (h dc))) /\
  (forall h2 : store V,
     selected self (sub_data_containers (h2 dc)) = sel ->
     same_arrays (dc :: sel) h h2 ->
     (run h2).2 = (run h).2 /\ same_arrays (dc :: sel) (run h).1 (run h2).1).
Proof.
  intros sel run.
  assert (Hrun : run h = zip_loop sel dc h).
  { unfold run, _zip_sub_data_containers.
    by rewrite sub_data_containers_to_zip_selected. }
  destruct (zip_loop_frame sel dc h) as (Hfr & Hsub & Hres).
  split; [done |]. split; [done |]. rewrite Hrun.
  split; [done |]. split; [done |]. split; [done |]. split.
  - intros Hdc di eo Hdi Heo.
    pose proof (zip_loop_content sel dc h Hdc) as Hc.
    rewrite Hdi, Heo in Hc. destruct Hc as (Hr & Hdi' & Heo').
    split; [done |].
    destruct ((zip_loop sel dc h).1 dc) as [di' eo' subs'].
    simpl in *. by subst.
  - intros h2 Hsel Hs.
    assert (Hrun2 : run h2 = zip_loop sel dc h2).
    { unfold run, _zip_sub_data_containers.
      by rewrite sub_data_containers_to_zip_selected, Hsel. }
    rewrite Hrun2.
    destruct (zip_loop_same_arrays (dc :: sel) sel dc h h2 Hs) as [Hr Hs'].
    { by left. }
    { intros r Hr. by right. }
    by split.
Qed.

End ZipDataClaim.

(** ** The statements on the sample inputs *)

Section Runs.
Import Examples.

(** The model of NumPy on small arrays. *)
Example zip_2x3_with_2 :
  Py.result_map (fun z => (Numpy.shape z, Numpy.ravel z))
    (ZipData._zip_np_arrays a_2x3 a_2)
  = Py.Ok ([2; 4], [0; 1; 2; 7; 10; 11; 12; 8]%Z).
Proof. reflexivity. Qed.

Example zip_2x3_with_1 :
  Py.result_map (fun z => (Numpy.shape z, Numpy.ravel z))
    (ZipData._zip_np_arrays a_2x3 a_1)
  = Py.Ok ([2; 4], [0; 1; 2; 9; 10; 11; 12; 9]%Z).
Proof. reflexivity. Qed.

Example zip_2x3_with_2x2 :
  Py.result_map (fun z => (Numpy.shape z, Numpy.ravel z))
    (ZipData._zip_np_arrays a_2x3 a_2x2)
  = Py.Ok ([2; 5], [0; 1; 2; 1; 2; 10; 11; 12; 3; 4]%Z).
Proof. reflexivity. Qed.

(** Three rows do not broadcast to two; an array of more axes than the
    primary one is not expanded and does not broadcast either; a scalar
    has no last axis. *)
Example zip_raises :
  Py.result_map Numpy.shape (ZipData._zip_np_arrays a_2x3 a_3)
  = Py.Raise Py.ValueError /\
  Py.result_map Numpy.shape (ZipData._zip_np_arrays a_2 a_2x3)
  = Py.Raise Py.ValueError /\
  Py.result_map Numpy.shape (ZipData._zip_np_arrays a_0 a_0)
  = Py.Raise Py.IndexError /\
  Py.result_map Numpy.shape (ZipData._zip_np_arrays a_0 a_2)
  = Py.Raise Py.ValueError.
Proof. repeat split; reflexivity. Qed.

(** CPython's generator: [random.Random(43).getrandbits(32)] three times,
    and [random.Random(43).shuffle] of five items; no rejection loop was
    cut off. *)
Example mt19937_seed_43 :
  (let (a, g) := MT19937.getrandbits 32 (MT19937.seed 43) in
   let (b, g) := MT19937.getrandbits 32 g in
   let (c, g) := MT19937.getrandbits 32 g in [a; b; c])
  = [165578901; 1228722198; 2990260696]%Z /\
  (let (x, g) := Random.shuffle (R:=MT19937.source) [0; 1; 2; 3; 4]
                   (MT19937.seed 43) in
   (x, MT19937.exhausted g))
  = (Py.Ok [1; 4; 3; 2; 0], false).
Proof. vm_compute. done. Qed.

(** [DataShuffler] on CPython's generator: a step built without the flag
    shuffles with its own seed, one built with it with the next seed;
    unequal lengths are cut to the shorter by [zip].  None of the shuffles
    behind the outputs below was cut off. *)
Example shuffler_runs :
  (DataShuffler.transform (R:=MT19937.source) (DataShuffler.mk 42 false)
     ([10; 20; 30]%Z, [1; 2; 3]%Z)).2
  = Py.Ok ([20; 10; 30]%Z, [2; 1; 3]%Z) /\
  (DataShuffler.transform (R:=MT19937.source) (DataShuffler.__init__ None true)
     ([10; 20; 30]%Z, [1; 2; 3]%Z))
  = (DataShuffler.mk 43 true, Py.Ok ([30; 20; 10]%Z, [3; 2; 1]%Z)) /\
  (DataShuffler.transform (R:=MT19937.source) (DataShuffler.__init__ None true)
     ([1; 2; 3]%Z, [2]%Z)).2
  = Py.Ok ([1]%Z, [2]%Z) /\
  map (fun s => MT19937.exhausted
                  (Random.shuffle (R:=MT19937.source) [0; 1; 2] (MT19937.seed s)).2)
      [42; 43; 44]%Z
  = [false; false; false].
Proof. vm_compute. done. Qed.

End Runs.

Section Witnesses.
Import Examples.

(** C8 on a counting step built with [epochs = 3]: one fit in train mode,
    three in test mode. *)
Lemma get_epochs_by_mode_witness :
  (EpochRepeater._get_epochs (EpochRepeater.mk 0 3 false false true) = 1%Z /\
   EpochRepeater.fit (EpochRepeater.mk 0 3 false false true) 7%Z 8%Z []
   = (EpochRepeater.mk 1 3 false false true, [Step.Fit 7%Z 8%Z]) /\
   Step.fits (EpochRepeater.fit (EpochRepeater.mk 0 3 false false true)
                7%Z 8%Z []).2 = 1) /\
  (EpochRepeater._get_epochs (EpochRepeater.mk 0 3 false false false) = 3%Z /\
   EpochRepeater.fit (EpochRepeater.mk 0 3 false false false) 7%Z 8%Z []
   = (EpochRepeater.mk 3 3 false false false,
      [Step.Fit 7%Z 8%Z; Step.Fit 7%Z 8%Z; Step.Fit 7%Z 8%Z]) /\
   Z.of_nat (Step.fits (EpochRepeater.fit (EpochRepeater.mk 0 3 false false false)
                          7%Z 8%Z []).2) = 3%Z).
Proof.
  split.
  - exact (proj1 (get_epochs_by_mode
                    (EpochRepeater.mk 0 3 false false true) 7%Z 8%Z [])
                 eq_refl).
  - destruct (proj2 (get_epochs_by_mode
                       (EpochRepeater.mk 0 3 false false false) 7%Z 8%Z [])
                    eq_refl eq_refl) as (H1 & H2 & H3).
    split; [exact H1 |]. split; [exact H2 |]. apply H3. simpl. lia.
Defined.

(** C3 on CPython's generator: a step built with the default seed shuffles
    three pairs by one permutation. *)
Lemma transform_same_permutation_witness :
  exists (pi : list nat) (out_di out_eo : list Z),
    (DataShuffler.transform (R:=MT19937.source)
       (DataShuffler.__init__ None true) ([10; 20; 30]%Z, [1; 2; 3]%Z)).2
    = Py.Ok (out_di, out_eo) /\
    pi ≡ₚ seq 0 3 /\
    length out_di = 3 /\ length out_eo = 3 /\
    forall i k, pi !! i = Some k ->
      out_di !! i = [10; 20; 30]%Z !! k /\ out_eo !! i = [1; 2; 3]%Z !! k.
Proof.
  apply (transform_same_permutation (R:=MT19937.source)
           (DataShuffler.__init__ None true) [10; 20; 30]%Z [1; 2; 3]%Z
           mt19937_in_range); [reflexivity | discriminate].
Defined.

(** C2 fails as stated: with the default
    [increment_seed_after_each_fit=True], two successive calls on the same
    step with the same input shuffle with the seeds 43 and 44 and return
    different outputs. *)
Lemma transform_twice_differs :
  (DataShuffler.transform (R:=MT19937.source)
     (DataShuffler.__init__ (Some 42%Z) true) ([10; 20; 30]%Z, [1; 2; 3]%Z)).2
  = Py.Ok ([30; 20; 10]%Z, [3; 2; 1]%Z) /\
  (DataShuffler.transform (R:=MT19937.source)
     (DataShuffler.transform (R:=MT19937.source)
        (DataShuffler.__init__ (Some 42%Z) true)
        ([10; 20; 30]%Z, [1; 2; 3]%Z)).1
     ([10; 20; 30]%Z, [1; 2; 3]%Z)).2
  = Py.Ok ([30; 10; 20]%Z, [3; 1; 2]%Z).
Proof. vm_compute. done. Qed.

(** C2 as amended, on CPython's generator: without the flag the second
    call returns what the first returned; with it, the second call of a
    step built with seed 42 shuffles as seed 44 does. *)
Lemma transform_seed_schedule_witness :
  (DataShuffler.transform (R:=MT19937.source)
     (Nat.iter 1 (fun s => (DataShuffler.transform (R:=MT19937.source) s
                              ([10; 20; 30]%Z, [1; 2; 3]%Z)).1)
        (DataShuffler.mk 42 false))
     ([10; 20; 30]%Z, [1; 2; 3]%Z)).2
  = (DataShuffler.transform (R:=MT19937.source) (DataShuffler.mk 42 false)
       ([10; 20; 30]%Z, [1; 2; 3]%Z)).2 /\
  (DataShuffler.transform (R:=MT19937.source)
     (Nat.iter 1 (fun s => (DataShuffler.transform (R:=MT19937.source) s
                              ([10; 20; 30]%Z, [1; 2; 3]%Z)).1)
        (DataShuffler.mk 42 true))
     ([10; 20; 30]%Z, [1; 2; 3]%Z)).2
  = (DataShuffler.transform (R:=MT19937.source) (DataShuffler.mk 44 false)
       ([10; 20; 30]%Z, [1; 2; 3]%Z)).2.
Proof.
  split.
  - exact (proj2 (proj1 (transform_seed_schedule (R:=MT19937.source)
                           (DataShuffler.mk 42 false)
                           ([10; 20; 30]%Z, [1; 2; 3]%Z) 1) eq_refl)).
  - exact (proj2 (proj2 (transform_seed_schedule (R:=MT19937.source)
                           (DataShuffler.mk 42 true)
                           ([10; 20; 30]%Z, [1; 2; 3]%Z) 1) eq_refl)).
Defined.

End Witnesses.

Section ZipWitnesses.
Import Examples Numpy DataContainer ZipSpec.


(** C6 on the sample store: [header] and [tail] are zipped into container
    [0], in that order; [other] is not. *)
Lemma zip_sub_data_containers_frame_witness :
  selected zip_header_tail (sub_data_containers (containers 0)) = [1; 3] /\
  (exists di eo : ndarray Z,
     (shape di, ravel di)
     = ([2; 6], [0; 1; 2; 7; 1; 2; 10; 11; 12; 8; 3; 4]%Z) /\
     (shape eo, ravel eo) = ([2; 3], [100; 70; 9; 200; 80; 9]%Z) /\
     (ZipData._zip_sub_data_containers zip_header_tail 0 containers).2
     = Py.Ok 0 /\
     (ZipData._zip_sub_data_containers zip_header_tail 0 containers).1 0
     = DataContainer.mk di eo (sub_data_containers (containers 0))) /\
  (forall r, r <> 0 ->
     (ZipData._zip_sub_data_containers zip_header_tail 0 containers).1 r
     = containers r) /\
  (ZipData._zip_sub_data_containers zip_header_tail 0 containers').2
  = (ZipData._zip_sub_data_containers zip_header_tail 0 containers).2.
Proof.
  destruct (zip_sub_data_containers_frame zip_header_tail 0 containers)
    as (_ & _ & Hframe & _ & _ & Hcontent & Hsame).
  assert (Hnot : 0 ∉ selected zip_header_tail (sub_data_containers (containers 0))).
  { intros H. apply list_elem_of_In in H. vm_compute in H.
    destruct H as [H|[H|[]]]; discriminate H. }
  edestruct (Hcontent Hnot) as [Hr Hh]; [reflexivity | reflexivity |].
  split; [reflexivity |]. split; [| split].
  - eexists _, _.
    split; [| split; [| split; [exact Hr | exact Hh]]]; reflexivity.
  - exact Hframe.
  - apply (Hsame containers'); [reflexivity |].
    intros r Hr'. apply list_elem_of_In in Hr'. simpl in Hr'.
    destruct Hr' as [<-|[<-|[<-|[]]]]; split; reflexivity.
Defined.

End ZipWitnesses.


(* ================================================================== *)
(** * Part III: further properties of the code                         *)
(* ================================================================== *)

(** ** [EpochRepeater]: the other entry points *)

Section EpochRepeaterMore.
Import EpochRepeater.
Context {W data DC Ctx : Type} `{!Step.BaseStep W data DC Ctx}.

Lemma set_wrapped_same (self : EpochRepeater.t W) :
  set_wrapped self (wrapped self) = self.
Proof. by destruct self. Qed.

Lemma get_epochs_set_wrapped (self : EpochRepeater.t W) (w : W) :
  _get_epochs (set_wrapped self w) = _get_epochs self.
Proof. reflexivity. Qed.

(** X1: [fit] and [_fit_data_container] fit the wrapped step the same
    number of times in every configuration, [_get_epochs()] times: [fit]
    calls [fit] on the data it was given, [_fit_data_container] calls
    [handle_fit] on a copy of the data container and the context it was
    given, and neither calls anything else. *)
Theorem fit_and_fit_data_container_agree (self : EpochRepeater.t W)
    (di eo : data) (dc : DC) (ctx : Ctx) :
  (fit self di eo []).2
  = repeat (Step.Fit di eo) (Traced.range (_get_epochs self)) /\
  (_fit_data_container self dc ctx []).2
  = repeat (Step.HandleFit (Step.copy dc) ctx) (Traced.range (_get_epochs self)) /\
  Step.fits (fit self di eo []).2
  = Step.fits (_fit_data_container self dc ctx []).2.
Proof.
  rewrite fit_trace, fit_data_container_trace. cbn [snd app].
  by rewrite fits_repeat_fit, fits_repeat_handle_fit.
Qed.


(** X3: [_fit_transform_data_container] consults neither the train/test
    mode nor [repeat_in_test_mode].  With [fit_only=False] it calls
    [handle_fit] [epochs - 1] times, each time on a copy of the data
    container, and then [handle_fit_transform] once on the data container
    itself: [epochs] calls in all when [epochs >= 1], and still one call
    when [epochs <= 0]. *)
Theorem fit_transform_data_container_calls (self : EpochRepeater.t W)
    (dc : DC) (ctx : Ctx) (tr : list (Step.call data DC Ctx)) :
  (forall b r : bool,
     (_fit_transform_data_container
        (mk (wrapped self) (epochs self) (fit_only self) r b) dc ctx tr).2
     = (_fit_transform_data_container self dc ctx tr).2) /\
  (fit_only self = false ->
     (_fit_transform_data_container self dc ctx tr).2
     = tr ++ repeat (Step.HandleFit (Step.copy dc) ctx)
                    (Z.to_nat (epochs self - 1))
          ++ [Step.HandleFitTransform dc ctx] /\
     Z.of_nat (length (_fit_transform_data_container self dc ctx tr).2)
     = (Z.of_nat (length tr) + Z.max (epochs self) 1)%Z).
Proof.
  split.
  - intros b r. by rewrite !fit_transform_data_container_trace.
  - intros Hfo. rewrite fit_transform_data_container_trace. cbn [snd].
    unfold fit_transform_data_container_fits. rewrite Hfo.
    split; [done |].
    rewrite !length_app, repeat_length. unfold Traced.range. simpl. lia.
Qed.

(** X4: with [fit_only=True] neither fit-transform path repeats anything:
    each makes one call to the wrapped step, its fit-transform on the
    arguments as given, and returns what that call returns, whatever
    [epochs] and the mode are. *)
Theorem fit_only_fit_transforms_once (self : EpochRepeater.t W)
    (di eo : data) (dc : DC) (ctx : Ctx) (tr : list (Step.call data DC Ctx)) :
  fit_only self = true ->
  fit_transform self di eo tr
  = ((set_wrapped self (Step.fit_transform (wrapped self) di eo).1,
      (Step.fit_transform (wrapped self) di eo).2),
     tr ++ [Step.FitTransform di eo]) /\
  _fit_transform_data_container self dc ctx tr
  = ((set_wrapped self (Step.handle_fit_transform (wrapped self) dc ctx).1,
      (Step.handle_fit_transform (wrapped self) dc ctx).2),
     tr ++ [Step.HandleFitTransform dc ctx]).
Proof.
  intros Hfo.
  rewrite fit_transform_trace, fit_transform_data_container_trace.
  unfold fit_transform_fits, fit_transform_data_container_fits.
  by rewrite Hfo.
Qed.

(** X5: every method changes [wrapped] alone: [epochs], [fit_only],
    [repeat_in_test_mode] and the mode are after the call what they were
    before it, so the next call repeats as often as this one. *)
Theorem methods_keep_configuration (self : EpochRepeater.t W)
    (di eo : data) (dc : DC) (ctx : Ctx) (tr : list (Step.call data DC Ctx)) :
  let same (self' : EpochRepeater.t W) :=
    epochs self' = epochs self /\ fit_only self' = fit_only self /\
    repeat_in_test_mode self' = repeat_in_test_mode self /\
    is_train self' = is_train self /\ _get_epochs self' = _get_epochs self in
  same (fit self di eo tr).1 /\
  same (_fit_data_container self dc ctx tr).1 /\
  same (fit_transform self di eo tr).1.1 /\
  same (_fit_transform_data_container self dc ctx tr).1.1.
Proof.
  intros same.
  rewrite fit_trace, fit_data_container_trace, fit_transform_trace,
    fit_transform_data_container_trace.
  by repeat split.
Qed.

(** X6: calls of [fit] add up: a second [fit] on the returned step fits
    the wrapped step as many times again, on the state the first left. *)
Theorem fit_then_fit (self : EpochRepeater.t W) (di eo di' eo' : data)
    (tr : list (Step.call data DC Ctx)) :
  fit (fit self di eo tr).1 di' eo' (fit self di eo tr).2
  = (set_wrapped self
       (fitted (Traced.range (_get_epochs self)) di' eo'
          (fitted (Traced.range (_get_epochs self)) di eo (wrapped self))),
     tr ++ repeat (Step.Fit di eo) (Traced.range (_get_epochs self))
        ++ repeat (Step.Fit di' eo') (Traced.range (_get_epochs self))).
Proof.
  rewrite (fit_trace self). cbn [fst snd]. rewrite fit_trace.
  rewrite get_epochs_set_wrapped. cbn zeta. f_equal.
  by rewrite <- app_assoc.
Qed.

(** X7: in test mode with [repeat_in_test_mode=False] and [epochs <= 0],
    [fit] and [_fit_data_container] do not touch the wrapped step: no call
    is made and the step is returned as it was. *)
Theorem fit_no_epochs (self : EpochRepeater.t W) (di eo : data) (dc : DC)
    (ctx : Ctx) (tr : list (Step.call data DC Ctx)) :
  is_train self = false -> repeat_in_test_mode self = false ->
  (epochs self <= 0)%Z ->
  fit self di eo tr = (self, tr) /\
  _fit_data_container self dc ctx tr = (self, tr).
Proof.
  intros Htest Hrep Hle.
  assert (Hn : Traced.range (_get_epochs self) = 0).
  { unfold _get_epochs. rewrite should_repeat_fit_spec, Htest, Hrep.
    unfold Traced.range. simpl. lia. }
  rewrite fit_trace, fit_data_container_trace. cbn zeta. rewrite Hn.
  cbn [repeat]. unfold fitted, handle_fitted. cbn [Nat.iter].
  rewrite !set_wrapped_same, !app_nil_r. by split.
Qed.

End EpochRepeaterMore.


(** ** [DataShuffler.transform]: lengths, empty sides, contents *)

Section DataShufflerMore.
Import DataShuffler.
Context {R : Random.RandomSource}.

(** X8: [transform] does not require the two sequences to be equally
    long: it pairs them position by position up to the shorter one, drops
    the rest without raising, and returns the pairs rearranged: both
    outputs are as long as the shorter input, and paired up again they are
    the pairs of the inputs in another order. *)
Theorem transform_truncates {V} (self : DataShuffler.t) (di eo : list V) :
  Random.randbelow_in_range R ->
  di <> [] -> eo <> [] ->
  exists out_di out_eo : list V,
    (transform self (di, eo)).2 = Py.Ok (out_di, out_eo) /\
    length out_di = Nat.min (length di) (length eo) /\
    length out_eo = Nat.min (length di) (length eo) /\
    zip out_di out_eo ≡ₚ zip di eo.
Proof.
  intros Hok Hdi Heo.
  destruct (shuffle_Permutation Hok (zip di eo)
              (Random.Random (seed (advanced self)))) as (ps & Hps & Hperm).
  assert (Hlen : length ps = Nat.min (length di) (length eo)).
  { by rewrite Hperm, length_zip_with. }
  exists (ps.*1), (ps.*2). rewrite transform_shuffled, Hps.
  split; [| by rewrite !length_fmap, zip_fst_snd].
  destruct ps; [| done].
  destruct di, eo; simpl in Hlen; done || lia.
Qed.

(** X9: when either sequence is empty [transform] raises [ValueError],
    whatever the other holds, and the seed has moved on all the same: the
    increment comes before the failing unpacking. *)
Theorem transform_raises_on_empty_side {V} (self : DataShuffler.t)
    (di eo : list V) :
  di = [] \/ eo = [] ->
  transform self (di, eo) = (advanced self, Py.Raise Py.ValueError).
Proof.
  intros Hempty.
  assert (Hz : zip di eo = []).
  { destruct Hempty as [-> | ->]; [done | by destruct di]. }
  rewrite (surjective_pairing (transform self (di, eo))).
  by rewrite transform_state, transform_shuffled, Hz.
Qed.

(** X10: a single pair is returned as it is, for every seed and every
    generator: no position is drawn.  So is the first pair when one of the
    sequences holds one item and the other more. *)
Theorem transform_single_pair {V} (self : DataShuffler.t) (a b : V)
    (di eo : list V) :
  (transform self ([a], b :: eo)).2 = Py.Ok ([a], [b]) /\
  (transform self (a :: di, [b])).2 = Py.Ok ([a], [b]).
Proof.
  rewrite !transform_shuffled. split; [done |]. by destruct di.
Qed.

(** X11: the rearrangement is blind to the items: which position goes
    where is fixed by the seed and the number of pairs.  Renaming the data
    inputs by [f] and the expected outputs by [g] before the call gives
    the outputs of the call renamed by [f] and [g]. *)
Theorem transform_oblivious {V V'} (f g : V -> V') (self : DataShuffler.t)
    (di eo : list V) :
  (transform self (f <$> di, g <$> eo)).2
  = Py.result_map (fun out => (f <$> out.1, g <$> out.2))
      (transform self (di, eo)).2.
Proof.
  assert (H1 : forall ps : list (V * V), (prod_map f g <$> ps).*1 = f <$> ps.*1).
  { intros ps. rewrite <- !list_fmap_compose. by apply list_fmap_ext. }
  assert (H2 : forall ps : list (V * V), (prod_map f g <$> ps).*2 = g <$> ps.*2).
  { intros ps. rewrite <- !list_fmap_compose. by apply list_fmap_ext. }
  rewrite !transform_shuffled, <- prod_map_zip, shuffle_fmap.
  destruct (Random.shuffle (zip di eo) _).1 as [ps|e]; [| done].
  destruct ps as [|p ps]; [done |].
  exact (f_equal2 (fun a b => Py.Ok (a, b)) (H1 (p :: ps)) (H2 (p :: ps))).
Qed.

End DataShufflerMore.


(** ** [ZipData._zip_np_arrays]: when it returns, and what it raises *)

Section ZipArraysMore.
Import Numpy.
Context {V : Type}.
Implicit Types (a b z : ndarray V).



(** The loop of [_zip_np_arrays] with the fuel it is given. *)
Lemma expand_loop_shape a b :
  shape (ZipData.expand_loop (ndim a) a b)
  = shape b ++ replicate (ndim a - ndim b) 1.
Proof.
  rewrite expand_loop_iter by lia. apply shape_expand_dims_iter.
Qed.





(** X14: what [_zip_np_arrays] raises on arrays of the wrong rank: a
    primary array of no axis cannot be zipped, with [IndexError] when
    the auxiliary array has no axis either and [ValueError] otherwise;
    and an auxiliary array of more axes than the primary one raises
    [ValueError]. *)
Theorem zip_np_arrays_rank_errors a b :
  (ndim a = 0 ->
     ZipData._zip_np_arrays a b
     = Py.Raise (if ndim b =? 0 then Py.IndexError else Py.ValueError)) /\
  (ndim a < ndim b -> ZipData._zip_np_arrays a b = Py.Raise Py.ValueError).
Proof.
  assert (Hgt : ndim a < ndim b ->
                ZipData._zip_np_arrays a b = Py.Raise Py.ValueError).
  { intros Hlt. unfold ZipData._zip_np_arrays.
    rewrite getitem_last, expand_loop_shape.
    replace (ndim a - ndim b) with 0 by lia. rewrite app_nil_r.
    destruct (last (shape b)) as [nb|] eqn:Hlast.
    2: { apply last_None in Hlast. unfold ndim in Hlt. rewrite Hlast in Hlt.
         simpl in Hlt. lia. }
    unfold broadcast_to. rewrite expand_loop_shape.
    replace (ndim a - ndim b) with 0 by lia. rewrite app_nil_r.
    destruct (broadcastable (shape b) (but_last (shape a) ++ [nb])) eqn:Hbc;
      [| done].
    unfold concatenate. rewrite getitem_last.
    destruct (last (shape a)) as [na|] eqn:Hla; [| done].
    exfalso. apply last_Some in Hla as [sa Hsa].
    rewrite Hsa, but_last_snoc in Hbc. unfold broadcastable in Hbc.
    apply andb_prop in Hbc as [Hle _]. apply Nat.leb_le in Hle.
    unfold ndim in Hlt. rewrite Hsa, !length_app in *. simpl in *. lia. }
  split; [| done].
  intros Ha. destruct (Nat.eqb_spec (ndim b) 0) as [Hb|Hb]; [| apply Hgt; lia].
  unfold ZipData._zip_np_arrays. rewrite getitem_last, expand_loop_shape.
  rewrite Ha, Hb. simpl. rewrite app_nil_r.
  unfold ndim in Hb. apply length_zero_iff_nil in Hb. by rewrite Hb.
Qed.

End ZipArraysMore.

(** ** [ZipData] on the store: names, failures, repeated calls *)

Section ZipDataMore.
Import Numpy DataContainer ZipData ZipSpec.
Context {V Ctx : Type}.
Implicit Types (h : store V) (dc l : ref) (context : Ctx).

Lemma fit_transform_data_container_run (self : ZipData.t) dc context h :
  ZipData._fit_transform_data_container self dc context h
  = ((_zip_sub_data_containers self dc h).1,
     Py.result_map (fun dc' => (self, dc')) (_zip_sub_data_containers self dc h).2).
Proof.
  unfold ZipData._fit_transform_data_container.
  by destruct (_zip_sub_data_containers self dc h).
Qed.

Lemma zip_sub_data_containers_run (self : ZipData.t) dc h :
  _zip_sub_data_containers self dc h
  = zip_loop (selected self (sub_data_containers (h dc))) dc h.
Proof.
  unfold _zip_sub_data_containers. by rewrite sub_data_containers_to_zip_selected.
Qed.

(** X15: names of [data_sources] that no sub data container carries are
    passed over without an error.  When none of the sub data containers
    has a listed name (also when there is no sub data container, or no
    name is listed) both entry points return the container and the step
    as they are and leave the whole store untouched. *)
Theorem zip_nothing_selected (self : ZipData.t) dc context h :
  (forall sub, sub ∈ sub_data_containers (h dc) -> sub.1 ∉ data_sources self) ->
  _transform_data_container self dc context h = (h, Py.Ok dc) /\
  ZipData._fit_transform_data_container self dc context h = (h, Py.Ok (self, dc)).
Proof.
  intros Hnone.
  assert (Hsel : selected self (sub_data_containers (h dc)) = []).
  { unfold selected.
    induction (sub_data_containers (h dc)) as [|sub subs IH]; [done |].
    rewrite filter_cons_False by (apply Hnone; by left).
    apply IH. intros sub' Hsub'. apply Hnone. by right. }
  rewrite fit_transform_data_container_run.
  unfold _transform_data_container.
  by rewrite zip_sub_data_containers_run, Hsel.
Qed.


(** X17: a failing zip is not undone and ends the call.  When the data
    inputs of the first selected sub data container zip and its expected
    outputs do not, the call raises the error of the second zip; the
    container then holds the zipped data inputs next to its old expected
    outputs, and the sub data containers selected after the first have not
    been zipped. *)
Theorem zip_fails_half_way (self : ZipData.t) dc context h l
    (rest : list ref) (di : ndarray V) (e : Py.exn) :
  selected self (sub_data_containers (h dc)) = l :: rest ->
  l <> dc ->
  _zip_np_arrays (data_inputs (h dc)) (data_inputs (h l)) = Py.Ok di ->
  _zip_np_arrays (expected_outputs (h dc)) (expected_outputs (h l)) = Py.Raise e ->
  _transform_data_container self dc context h
  = (set_data_inputs dc di h, Py.Raise e) /\
  (_transform_data_container self dc context h).1 dc
  = DataContainer.mk di (expected_outputs (h dc)) (sub_data_containers (h dc)).
Proof.
  intros Hsel Hl Hdi Heo. unfold _transform_data_container.
  rewrite zip_sub_data_containers_run, Hsel. cbn [zip_loop].
  rewrite zip_data_container_other by done. rewrite Hdi, Heo.
  split; [done |]. cbn [fst]. unfold set_data_inputs. by rewrite write_same.
Qed.

(** X18: the transform is not idempotent; calls add up.  After a call
    that returned, a second call on the same container zips the same
    sub data containers once more into the arrays the first call left. *)
Theorem zip_twice (self : ZipData.t) dc context h (di1 eo1 di2 eo2 : ndarray V) :
  dc ∉ selected self (sub_data_containers (h dc)) ->
  zip_all (data_inputs (h dc))
    ((fun l => data_inputs (h l)) <$> selected self (sub_data_containers (h dc)))
  = Py.Ok di1 ->
  zip_all (expected_outputs (h dc))
    ((fun l => expected_outputs (h l)) <$> selected self (sub_data_containers (h dc)))
  = Py.Ok eo1 ->
  zip_all di1
    ((fun l => data_inputs (h l)) <$> selected self (sub_data_containers (h dc)))
  = Py.Ok di2 ->
  zip_all eo1
    ((fun l => expected_outputs (h l)) <$> selected self (sub_data_containers (h dc)))
  = Py.Ok eo2 ->
  (_transform_data_container self dc context h).2 = Py.Ok dc /\
  _transform_data_container self dc context
    (_transform_data_container self dc context h).1
  = ((_transform_data_container self dc context
        (_transform_data_container self dc context h).1).1, Py.Ok dc) /\
  (_transform_data_container self dc context
     (_transform_data_container self dc context h).1).1 dc
  = DataContainer.mk di2 eo2 (sub_data_containers (h dc)).
Proof.
  intros Hdc Hdi1 Heo1 Hdi2 Heo2. unfold _transform_data_container.
  rewrite zip_sub_data_containers_run.
  set (sel := selected self (sub_data_containers (h dc))) in *.
  destruct (zip_loop_frame sel dc h) as (Hfr & Hsub & _).
  pose proof (zip_loop_content sel dc h Hdc) as Hc.
  rewrite Hdi1, Heo1 in Hc. destruct Hc as (Hr & Hd1 & He1).
  set (h1 := (zip_loop sel dc h).1) in *.
  rewrite zip_sub_data_containers_run, Hsub. fold sel.
  destruct (zip_loop_frame sel dc h1) as (_ & Hsub2 & _).
  pose proof (zip_loop_content sel dc h1 Hdc) as Hc.
  assert (Hsame : forall r, r ∈ sel -> h1 r = h r).
  { intros r Hr'. apply Hfr. intros ->. done. }
  rewrite Hd1, He1 in Hc.
  rewrite (list_fmap_ext (fun l => data_inputs (h1 l))
             (fun l => data_inputs (h l)) sel) in Hc.
  2: { intros i r Hi. rewrite Hsame; [done |]. by eapply list_elem_of_lookup_2. }
  rewrite (list_fmap_ext (fun l => expected_outputs (h1 l))
             (fun l => expected_outputs (h l)) sel) in Hc.
  2: { intros i r Hi. rewrite Hsame; [done |]. by eapply list_elem_of_lookup_2. }
  rewrite Hdi2, Heo2 in Hc. destruct Hc as (Hr2 & Hd2 & He2).
  split; [done |]. split.
  - rewrite (surjective_pairing (zip_loop sel dc h1)) at 1. by rewrite Hr2.
  - destruct ((zip_loop sel dc h1).1 dc) as [d e s]. simpl in *.
    by rewrite Hsub in Hsub2; subst.
Qed.

End ZipDataMore.

(** ** The properties of Part III on the sample inputs *)

Section MoreWitnesses.
Import Examples.


(** X3 on a counting step built with [epochs = 3] in train mode: two
    [handle_fit] and one [handle_fit_transform]. *)
Lemma fit_transform_data_container_calls_witness :
  (EpochRepeater._fit_transform_data_container
     (EpochRepeater.mk 0 3 false false true) 5%Z tt []).2
  = [Step.HandleFit 5%Z tt; Step.HandleFit 5%Z tt; Step.HandleFitTransform 5%Z tt] /\
  Z.of_nat (length (EpochRepeater._fit_transform_data_container
                      (EpochRepeater.mk 0 3 false false true) 5%Z tt []).2)
  = 3%Z.
Proof.
  exact (proj2 (fit_transform_data_container_calls
                  (EpochRepeater.mk 0 3 false false true) 5%Z tt [])
               eq_refl).
Defined.

(** X4 on a counting step built with [epochs = 3] and [fit_only=True]. *)
Lemma fit_only_fit_transforms_once_witness :
  EpochRepeater.fit_transform (EpochRepeater.mk 0 3 true false false) 7%Z 8%Z []
  = ((EpochRepeater.mk 1 3 true false false, 7%Z), [Step.FitTransform 7%Z 8%Z]) /\
  EpochRepeater._fit_transform_data_container
    (EpochRepeater.mk 0 3 true false false) 5%Z tt []
  = ((EpochRepeater.mk 1 3 true false false, 5%Z), [Step.HandleFitTransform 5%Z tt]).
Proof.
  exact (fit_only_fit_transforms_once (EpochRepeater.mk 0 3 true false false)
           7%Z 8%Z 5%Z tt [] eq_refl).
Defined.

(** X7 on a counting step built with [epochs = 0], in test mode. *)
Lemma fit_no_epochs_witness :
  EpochRepeater.fit (EpochRepeater.mk 0 0 false false false) 7%Z 8%Z []
  = (EpochRepeater.mk 0 0 false false false, []) /\
  EpochRepeater._fit_data_container
    (EpochRepeater.mk 0 0 false false false) 5%Z tt []
  = (EpochRepeater.mk 0 0 false false false, []).
Proof.
  apply (fit_no_epochs (EpochRepeater.mk 0 0 false false false) 7%Z 8%Z 5%Z tt []);
    [reflexivity | reflexivity | simpl; lia].
Defined.

(** X8 on CPython's generator: three data inputs and two expected
    outputs give two pairs. *)
Lemma transform_truncates_witness :
  exists out_di out_eo : list Z,
    (DataShuffler.transform (R:=MT19937.source)
       (DataShuffler.__init__ None true) ([10; 20; 30]%Z, [1; 2]%Z)).2
    = Py.Ok (out_di, out_eo) /\
    length out_di = 2 /\ length out_eo = 2 /\
    zip out_di out_eo ≡ₚ [(10, 1); (20, 2)]%Z.
Proof.
  apply (transform_truncates (R:=MT19937.source)
           (DataShuffler.__init__ None true) [10; 20; 30]%Z [1; 2]%Z
           mt19937_in_range); discriminate.
Defined.

(** X9 on CPython's generator: no data inputs, three expected outputs. *)
Lemma transform_raises_on_empty_side_witness :
  DataShuffler.transform (R:=MT19937.source)
    (DataShuffler.__init__ None true) ([], [1; 2; 3]%Z)
  = (DataShuffler.mk 43 true, Py.Raise Py.ValueError).
Proof.
  apply (transform_raises_on_empty_side (R:=MT19937.source)
           (DataShuffler.__init__ None true) [] [1; 2; 3]%Z).
  by left.
Defined.

End MoreWitnesses.

Section MoreZipWitnesses.
Import Examples Numpy DataContainer ZipSpec.


(** X14 on the scalar [4]: it cannot be the primary array, and an array
    of one axis cannot take a 2x3 array. *)
Lemma zip_np_arrays_rank_errors_witness :
  ZipData._zip_np_arrays a_0 a_0 = Py.Raise Py.IndexError /\
  ZipData._zip_np_arrays a_0 a_2 = Py.Raise Py.ValueError /\
  ZipData._zip_np_arrays a_2 a_2x3 = Py.Raise Py.ValueError.
Proof.
  split; [| split].
  - exact (proj1 (zip_np_arrays_rank_errors a_0 a_0) eq_refl).
  - exact (proj1 (zip_np_arrays_rank_errors a_0 a_2) eq_refl).
  - apply (proj2 (zip_np_arrays_rank_errors a_2 a_2x3)). vm_compute. lia.
Defined.

(** X15 on the sample store: no sub data container of container [0] is
    called [weights]. *)
Lemma zip_nothing_selected_witness :
  ZipData._transform_data_container (ZipData.__init__ ["weights"%string]) 0 tt
    containers
  = (containers, Py.Ok 0) /\
  ZipData._fit_transform_data_container (ZipData.__init__ ["weights"%string]) 0 tt
    containers
  = (containers, Py.Ok (ZipData.__init__ ["weights"%string], 0)).
Proof.
  apply (zip_nothing_selected (ZipData.__init__ ["weights"%string]) 0 tt containers).
  intros sub Hsub Hname. apply list_elem_of_In in Hsub, Hname.
  simpl in Hsub, Hname.
  destruct Hname as [Hname|[]].
  destruct Hsub as [<-|[<-|[<-|[]]]]; discriminate Hname.
Defined.


(** X17 on the sample store with three expected outputs in [header]: the
    data inputs of container [0] are zipped, to a 2x4 array, and its
    expected outputs are not; [tail] is not reached. *)
Lemma zip_fails_half_way_witness :
  exists di : ndarray Z,
    (shape di, ravel di) = ([2; 4], [0; 1; 2; 7; 10; 11; 12; 8]%Z) /\
    ZipData._transform_data_container zip_header_tail 0 tt
      (set_expected_outputs 1 a_3 containers)
    = (set_data_inputs 0 di (set_expected_outputs 1 a_3 containers),
       Py.Raise Py.ValueError) /\
    (ZipData._transform_data_container zip_header_tail 0 tt
       (set_expected_outputs 1 a_3 containers)).1 0
    = DataContainer.mk di a_2x1 (sub_data_containers (containers 0)).
Proof.
  eexists. split; [| apply (zip_fails_half_way zip_header_tail 0 tt
                              (set_expected_outputs 1 a_3 containers) 1 [3])];
    [| reflexivity | discriminate | reflexivity | reflexivity].
  reflexivity.
Defined.

(** X18 on the sample store: after two calls container [0] holds a 2x9
    and a 2x5 array. *)
Lemma zip_twice_witness :
  exists di2 eo2 : ndarray Z,
    (shape di2, ravel di2)
    = ([2; 9], [0; 1; 2; 7; 1; 2; 7; 1; 2; 10; 11; 12; 8; 3; 4; 8; 3; 4]%Z) /\
    (shape eo2, ravel eo2)
    = ([2; 5], [100; 70; 9; 70; 9; 200; 80; 9; 80; 9]%Z) /\
    (ZipData._transform_data_container zip_header_tail 0 tt containers).2
    = Py.Ok 0 /\
    (ZipData._transform_data_container zip_header_tail 0 tt
       (ZipData._transform_data_container zip_header_tail 0 tt containers).1).2
    = Py.Ok 0 /\
    (ZipData._transform_data_container zip_header_tail 0 tt
       (ZipData._transform_data_container zip_header_tail 0 tt containers).1).1 0
    = DataContainer.mk di2 eo2 (sub_data_containers (containers 0)).
Proof.
  assert (Hnot : 0 ∉ selected zip_header_tail (sub_data_containers (containers 0))).
  { intros H. apply list_elem_of_In in H. vm_compute in H.
    destruct H as [H|[H|[]]]; discriminate H. }
  edestruct (zip_twice zip_header_tail 0 tt containers) as (H1 & H2 & H3);
    [exact Hnot | reflexivity | reflexivity | reflexivity | reflexivity |].
  eexists _, _. split; [| split; [| split; [exact H1 | split; [| exact H3]]]].
  - reflexivity.
  - reflexivity.
  - by rewrite H2.
Defined.

End MoreZipWitnesses.
